(** * WMS_Pro: the stock ledger and the dashboard aggregates

    A shallow embedding of [server/storage.ts] (class [DatabaseStorage]),
    of the stock route of [server/routes.ts] and of the tables of
    [shared/schema.ts].  The relational store is a record of row lists,
    the drizzle queries are written with a small set of SQL combinators
    (three-valued conditions, left join, aggregates, order by), and the
    body of [db.transaction] runs in a state-and-exception monad whose
    [transaction] wrapper restores the initial store when the body throws. *)

From Stdlib Require Import ZArith List String Ascii Bool Lia.
From Stdlib Require Import Sorting.Sorted Sorting.Permutation.
Import ListNotations.

Open Scope string_scope.
Open Scope list_scope.
Open Scope Z_scope.

(** ** Tables ([shared/schema.ts])

    Nullable columns are [option]s.  Timestamps are epoch milliseconds.
    [unitPrice] is [decimal(10,2)]: it is held as a whole number of
    hundredths.  [isActive] is [boolean] in one schema and [integer] 0/1
    in the other; both are read as a nullable [bool]. *)

Module zones.
Record row := mk {
  id : Z;
  name : string;
  description : option string;
  capacity : option Z;
  createdAt : Z;
  updatedAt : Z
}.
End zones.

Module products.
Record row := mk {
  id : Z;
  productId : string;
  name : string;
  description : option string;
  category : string;
  zoneId : option Z;
  currentStock : option Z;
  minStock : option Z;
  unitPrice : option Z;
  isActive : option bool;
  createdAt : Z;
  updatedAt : Z
}.
End products.

Inductive MovementType := IN | OUT.

Module movements.
Record row := mk {
  id : Z;
  productId : Z;
  type : MovementType;
  quantity : Z;
  previousStock : Z;
  newStock : Z;
  reason : option string;
  userId : option string;
  createdAt : Z
}.
End movements.

(** The store: the three tables and the [serial] counter of [movements.id]. *)
Record Db := mkDb {
  zones_tbl : list zones.row;
  products_tbl : list products.row;
  movements_tbl : list movements.row;
  movements_seq : Z
}.

(** ** JavaScript truthiness used by the source *)

(** [x || 0] on a nullable integer. *)
Definition js_or0 (x : option Z) : Z :=
  match x with Some v => v | None => 0 end.

(** [s || null] on an optional string: the empty string is falsy. *)
Definition js_or_null (s : option string) : option string :=
  match s with
  | Some EmptyString => None
  | other => other
  end.

(** Truthiness of an optional number ([undefined], [null] and [0] are falsy). *)
Definition truthyZ (x : option Z) : bool :=
  match x with Some v => negb (v =? 0) | None => false end.

(** Truthiness of an optional string ([undefined] and the empty string are falsy). *)
Definition truthyS (s : option string) : bool :=
  match s with Some EmptyString => false | Some _ => true | None => false end.

(** ** Transactions: a state-and-exception monad over the store *)

Inductive outcome (A : Type) :=
| Ok (a : A)
| Throw (message : string).
Arguments Ok {A} a.
Arguments Throw {A} message.

Definition Tx (A : Type) : Type := Db -> Db * outcome A.

Definition ret {A} (a : A) : Tx A := fun db => (db, Ok a).

Definition throw {A} (message : string) : Tx A := fun db => (db, Throw message).

Definition bind {A B} (c : Tx A) (k : A -> Tx B) : Tx B :=
  fun db =>
    match c db with
    | (db', Ok a) => k a db'
    | (db', Throw e) => (db', Throw e)
    end.

Notation "x <- c ;; k" := (bind c (fun x => k))
  (at level 61, c at next level, right associativity).
Notation "c ;;; k" := (bind c (fun _ => k))
  (at level 61, right associativity).

(** [tx.select().from(products).where(eq(products.id, id))] *)
Definition tx_select_product (id : Z) : Tx (list products.row) :=
  fun db => (db, Ok (filter (fun p => products.id p =? id) (products_tbl db))).

(** [tx.update(products).set(...).where(eq(products.id, id))] *)
Definition tx_update_product (id : Z) (set : products.row -> products.row) : Tx unit :=
  fun db =>
    (mkDb (zones_tbl db)
          (map (fun p => if products.id p =? id then set p else p) (products_tbl db))
          (movements_tbl db)
          (movements_seq db),
     Ok tt).

(** [tx.insert(movements).values(...)]: the row gets the next serial id.
    The users table is outside the store, so the reference of [userId]
    is not checked. *)
Definition tx_insert_movement (values : Z -> movements.row) : Tx unit :=
  fun db =>
    let next := movements_seq db + 1 in
    (mkDb (zones_tbl db) (products_tbl db)
          (movements_tbl db ++ [values next])
          next,
     Ok tt).

(** [db.transaction(body)]: commit on return, roll back on throw. *)
Definition transaction {A} (body : Tx A) : Tx A :=
  fun db =>
    match body db with
    | (db', Ok a) => (db', Ok a)
    | (_, Throw e) => (db, Throw e)
    end.

(** ** The stock ledger ([DatabaseStorage.updateStock]) *)

Definition set_stock (newStock now : Z) (p : products.row) : products.row :=
  products.mk (products.id p) (products.productId p) (products.name p)
    (products.description p) (products.category p) (products.zoneId p)
    (Some newStock) (products.minStock p) (products.unitPrice p)
    (products.isActive p) (products.createdAt p) now.

(** The number JavaScript holds for an integer result: the nearest
    double, a tie going to the even mantissa.  Integers of size up to
    [2^53] are held exactly; above, the doubles are [2^(e-52)] apart,
    [e] being the binary logarithm of the size.  (Sizes from [2^1024] on,
    held as infinities, are outside the model.) *)
Definition js_number (z : Z) : Z :=
  let m := Z.abs z in
  if m <=? 2 ^ 53 then z
  else
    let u := 2 ^ (Z.log2 m - 52) in
    let q := m / u in
    let r := m mod u in
    let q' := if 2 * r <? u then q
              else if u <? 2 * r then q + 1
              else if Z.even q then q else q + 1 in
    Z.sgn z * (q' * u).

(** [type === "IN" ? previousStock + quantity : previousStock - quantity]
    on JavaScript numbers. *)
Definition computeNewStock (previousStock quantity : Z) (type : MovementType) : Z :=
  match type with
  | IN => js_number (previousStock + quantity)
  | OUT => js_number (previousStock - quantity)
  end.

(** [now] is the clock reading of the call; it stamps both [updatedAt] of
    the product and [createdAt] of the movement.  The quantity is an
    integer.  A write the database refuses (a value outside the width of
    the column, a [userId] that no row of the users table has) is not
    part of this model: the theorems that conclude from a call that
    returned take the return as a hypothesis. *)
Definition updateStock (productId quantity : Z) (type : MovementType)
    (reason userId : option string) (now : Z) : Tx unit :=
  transaction (
    rows <- tx_select_product productId ;;
    match rows with
    | [] => throw "Product not found"
    | product :: _ =>
        let previousStock := js_or0 (products.currentStock product) in
        let newStock := computeNewStock previousStock quantity type in
        if newStock <? 0 then throw "Insufficient stock"
        else
          tx_update_product productId (set_stock newStock now) ;;;
          tx_insert_movement (fun id =>
            movements.mk id productId type quantity previousStock newStock
              (js_or_null reason) (js_or_null userId) now)
    end).

(** ** Soft delete ([DatabaseStorage.deleteProduct]) *)

Definition set_inactive (p : products.row) : products.row :=
  products.mk (products.id p) (products.productId p) (products.name p)
    (products.description p) (products.category p) (products.zoneId p)
    (products.currentStock p) (products.minStock p) (products.unitPrice p)
    (Some false) (products.createdAt p) (products.updatedAt p).

(** [db.update(products).set({ isActive: false }).where(eq(products.id, id))]
    ([isActive: 0] on SQLite). *)
Definition deleteProduct (id : Z) (db : Db) : Db :=
  mkDb (zones_tbl db)
       (map (fun p => if products.id p =? id then set_inactive p else p) (products_tbl db))
       (movements_tbl db)
       (movements_seq db).

(** ** The stock route ([POST /api/products/:id/stock]) *)

Record Response := mkResponse {
  statusCode : Z;
  message : string
}.

(** The fields read from [req.body]; [None] is an absent field.  The
    quantity is a JSON number; a body that carries it as text is outside
    this record. *)
Record StockBody := mkStockBody {
  body_quantity : option Z;
  body_type : option string;
  body_reason : option string
}.

(** [["IN", "OUT"].includes(type)], with the value [updateStock] then
    branches on ([type === "IN"]). *)
Definition parse_type (t : option string) : option MovementType :=
  match t with
  | Some "IN" => Some IN
  | Some "OUT" => Some OUT
  | _ => None
  end.

Definition stock_route (id : Z) (body : StockBody) (user : option string) (now : Z)
    (db : Db) : Db * Response :=
  if negb (truthyZ (body_quantity body)) || negb (truthyS (body_type body)) then
    (db, mkResponse 400 "Invalid stock update data")
  else
    match body_quantity body, parse_type (body_type body) with
    | Some quantity, Some type =>
        match updateStock id quantity type (body_reason body) user now db with
        | (db', Ok _) => (db', mkResponse 200 "Stock updated successfully")
        | (db', Throw e) => (db', mkResponse 500 e)
        end
    | _, _ => (db, mkResponse 400 "Invalid stock update data")
    end.

(** ** Reading the ledger back *)

Definition findProduct (id : Z) (db : Db) : option products.row :=
  hd_error (filter (fun p => products.id p =? id) (products_tbl db)).

Definition movementsOf (id : Z) (db : Db) : list movements.row :=
  filter (fun m => movements.productId m =? id) (movements_tbl db).

Definition signed (m : movements.row) : Z :=
  match movements.type m with
  | IN => movements.quantity m
  | OUT => - movements.quantity m
  end.

Definition net (ms : list movements.row) : Z :=
  fold_right (fun m acc => signed m + acc) 0 ms.


(** A call of [updateStock], and a run of calls that all succeed. *)
Record StockCall := mkCall {
  call_product : Z;
  call_quantity : Z;
  call_type : MovementType;
  call_reason : option string;
  call_user : option string;
  call_now : Z
}.

Definition applyCall (c : StockCall) : Tx unit :=
  updateStock (call_product c) (call_quantity c) (call_type c)
    (call_reason c) (call_user c) (call_now c).

Fixpoint applyCalls (cs : list StockCall) (db : Db) : option Db :=
  match cs with
  | [] => Some db
  | c :: rest =>
      match applyCall c db with
      | (db', Ok _) => applyCalls rest db'
      | (_, Throw _) => None
      end
  end.

(** The stock a call reads: [product.currentStock || 0] of the row found. *)
Definition readStock (id : Z) (db : Db) : option Z :=
  option_map (fun p => js_or0 (products.currentStock p)) (findProduct id db).

(** [newStock] of the most recent movement, [d] when there is none. *)
Definition latestNewStock (ms : list movements.row) (d : Z) : Z :=
  last (map movements.newStock ms) d.

(** The store a successful call of [updateStock] commits, [p] being the
    row it read. *)
Definition committed (db : Db) (id quantity : Z) (type : MovementType)
    (reason userId : option string) (now : Z) (p : products.row) : Db :=
  let previousStock := js_or0 (products.currentStock p) in
  let newStock := computeNewStock previousStock quantity type in
  mkDb (zones_tbl db)
    (map (fun r => if products.id r =? id then set_stock newStock now r else r)
       (products_tbl db))
    (movements_tbl db ++
       [movements.mk (movements_seq db + 1) id type quantity previousStock newStock
          (js_or_null reason) (js_or_null userId) now])
    (movements_seq db + 1).

(** The stock read for product [k] is the [newStock] of its latest
    movement (when it has one) and is [base], the implicit initial stock,
    plus the net of its history. *)
Definition balanced (k base : Z) (db : Db) : Prop :=
  exists s, readStock k db = Some s
    /\ latestNewStock (movementsOf k db) s = s
    /\ s = base + net (movementsOf k db).

(** The values of a 32-bit [integer] column.  On this range JavaScript
    adds and subtracts exactly, and both back ends store the result as it
    is. *)
Definition int4 (z : Z) : Prop := -2147483648 <= z <= 2147483647.

(** The quantity of a call, the stock it reads and the stock it computes
    are in range. *)
Definition call_in_range (c : StockCall) (db : Db) : Prop :=
  int4 (call_quantity c)
  /\ match findProduct (call_product c) db with
     | Some p =>
         int4 (js_or0 (products.currentStock p))
         /\ int4 (computeNewStock (js_or0 (products.currentStock p))
                   (call_quantity c) (call_type c))
     | None => True
     end.

Fixpoint run_in_range (cs : list StockCall) (db : Db) : Prop :=
  match cs with
  | [] => True
  | c :: rest => call_in_range c db /\ run_in_range rest (fst (applyCall c db))
  end.

(** ** SQL conditions (three-valued) and relational combinators *)

Definition sql_and (a b : option bool) : option bool :=
  match a, b with
  | Some false, _ => Some false
  | _, Some false => Some false
  | Some true, Some true => Some true
  | _, _ => None
  end.

Definition sql_or (a b : option bool) : option bool :=
  match a, b with
  | Some true, _ => Some true
  | _, Some true => Some true
  | Some false, Some false => Some false
  | _, _ => None
  end.

Definition sql_cmp {A} (cmp : A -> A -> bool) (a b : option A) : option bool :=
  match a, b with
  | Some x, Some y => Some (cmp x y)
  | _, _ => None
  end.

Definition sql_eqZ := sql_cmp Z.eqb.
Definition sql_gtZ := sql_cmp Z.gtb.
Definition sql_leZ := sql_cmp Z.leb.
Definition sql_eqB := sql_cmp Bool.eqb.
Definition sql_eqS := sql_cmp String.eqb.

(** drizzle's [and(...conditions)]. *)
Definition sql_and_all (cs : list (option bool)) : option bool :=
  fold_right sql_and (Some true) cs.

(** A [WHERE] or [ON] clause keeps a row when the condition is TRUE. *)
Definition is_true (c : option bool) : bool :=
  match c with Some true => true | _ => false end.

(** The rows a left row contributes to a left join: one per matching
    right row, or one with NULLs on the right when nothing matches. *)
Definition joined_with {A B} (on : A -> B -> bool) (r : list B) (a : A)
    : list (A * option B) :=
  match filter (on a) r with
  | [] => [(a, None)]
  | matches => map (fun b => (a, Some b)) matches
  end.

Definition left_join {A B} (on : A -> B -> bool) (l : list A) (r : list B)
    : list (A * option B) :=
  flat_map (joined_with on r) l.

(** The aggregates [count] over all rows and [count(col)] over non-NULL values. *)
Definition count_star {A} (rows : list A) : Z := Z.of_nat (List.length rows).

Definition count_col {A} (col : list (option A)) : Z :=
  Z.of_nat (List.length (filter (fun v => match v with Some _ => true | None => false end) col)).

(** [sum(col)]: NULL inputs are skipped, and the sum of no input is NULL. *)
Definition sql_sum (col : list (option Z)) : option Z :=
  fold_left (fun acc v =>
    match v, acc with
    | Some x, Some a => Some (a + x)
    | Some x, None => Some x
    | None, _ => acc
    end) col None.

Definition sql_mul (a b : option Z) : option Z :=
  match a, b with
  | Some x, Some y => Some (x * y)
  | _, _ => None
  end.

Definition coalesce (x : option Z) (d : Z) : Z :=
  match x with Some v => v | None => d end.

(** [ORDER BY asc(key)] on a text column, in byte order (the BINARY
    collation of SQLite; PostgreSQL orders by the collation of the
    database), equal keys staying in the order of the input. *)
Fixpoint insert_by {A} (key : A -> string) (x : A) (l : list A) : list A :=
  match l with
  | [] => [x]
  | y :: rest =>
      if String.leb (key x) (key y) then x :: y :: rest
      else y :: insert_by key x rest
  end.

Definition order_by {A} (key : A -> string) (l : list A) : list A :=
  fold_right (insert_by key) [] l.

Definition key_le {A} (key : A -> string) (a b : A) : Prop :=
  String.leb (key a) (key b) = true.

(** The keys of [GROUP BY], each once, in order of first appearance. *)
Fixpoint distinct (l : list Z) : list Z :=
  match l with
  | [] => []
  | x :: rest => x :: filter (fun y => negb (y =? x)) (distinct rest)
  end.

Definition group_by {A} (key : A -> Z) (rows : list A) : list (list A) :=
  map (fun k => filter (fun r => key r =? k) rows) (distinct (map key rows)).

(** The two database back ends of the repository. *)
Inductive Dialect := Postgres | SQLite.

(** [cast(x as integer)] of a value held in hundredths: PostgreSQL rounds
    a [numeric] to the nearest integer (ties away from zero), SQLite
    truncates towards zero.  On SQLite the column [unit_price] is a
    binary [real] and the sum a floating-point number: that branch agrees
    with the back end only where the floating-point sum is exact, and no
    general statement below is made about it. *)
Definition cast_integer (d : Dialect) (hundredths : Z) : Z :=
  match d with
  | Postgres =>
      if 0 <=? hundredths then (hundredths + 50) / 100
      else - ((- hundredths + 50) / 100)
  | SQLite => Z.quot hundredths 100
  end.

(** ** [LIKE] and [ILIKE]

    [%] matches any run of characters and [_] any one character.  Both
    back ends compare letters without case ([ilike] on PostgreSQL, the
    default [like] of SQLite), which is modelled on the ASCII letters:
    this is the folding of SQLite; PostgreSQL also folds letters outside
    ASCII.  PostgreSQL reads a backslash as the escape character; SQLite
    has no default escape character. *)

Definition lower (c : ascii) : ascii :=
  let n := N_of_ascii c in
  if ((65 <=? n) && (n <=? 90))%N then ascii_of_N (n + 32) else c.

Definition eqb_ci (a b : ascii) : bool := Ascii.eqb (lower a) (lower b).

Definition escape_char (d : Dialect) : option ascii :=
  match d with
  | Postgres => Some "\"%char
  | SQLite => None
  end.

Definition is_escape (d : Dialect) (c : ascii) : bool :=
  match escape_char d with
  | Some e => Ascii.eqb c e
  | None => false
  end.

Fixpoint like (d : Dialect) (pattern text : string) : bool :=
  match pattern with
  | EmptyString =>
      match text with EmptyString => true | String _ _ => false end
  | String c pattern' =>
      if is_escape d c then
        match pattern', text with
        | String e pattern'', String t text' => eqb_ci e t && like d pattern'' text'
        | _, _ => false
        end
      else if Ascii.eqb c "%" then
        (fix any (text : string) : bool :=
           like d pattern' text
           || match text with
              | EmptyString => false
              | String _ text' => any text'
              end) text
      else if Ascii.eqb c "_" then
        match text with
        | String _ text' => like d pattern' text'
        | EmptyString => false
        end
      else
        match text with
        | String t text' => eqb_ci c t && like d pattern' text'
        | EmptyString => false
        end
  end.

(** ** Product listing ([DatabaseStorage.getProducts]) *)

Inductive Status := all | in_stock | low_stock | out_of_stock.

Record Filters := mkFilters {
  category : option string;
  zoneId : option Z;
  status : option Status;
  search : option string
}.

Definition Condition := products.row -> option bool.

Definition active_condition : Condition :=
  fun p => sql_eqB (products.isActive p) (Some true).

Definition category_condition (c : string) : Condition :=
  fun p => sql_eqS (Some (products.category p)) (Some c).

Definition zone_condition (z : Z) : Condition :=
  fun p => sql_eqZ (products.zoneId p) (Some z).

Definition search_condition (d : Dialect) (s : string) : Condition :=
  let pattern := ("%" ++ s ++ "%")%string in
  fun p =>
    sql_or (Some (like d pattern (products.name p)))
      (sql_or (Some (like d pattern (products.productId p)))
              (Some (like d pattern (products.category p)))).

(** The [switch (filters.status)]. *)
Definition status_conditions (s : Status) : list Condition :=
  match s with
  | in_stock =>
      [fun p => sql_gtZ (products.currentStock p) (products.minStock p)]
  | low_stock =>
      [fun p => sql_and (sql_leZ (products.currentStock p) (products.minStock p))
                        (sql_gtZ (products.currentStock p) (Some 0))]
  | out_of_stock =>
      [fun p => sql_eqZ (products.currentStock p) (Some 0)]
  | all => []
  end.

Definition conditions (d : Dialect) (filters : Filters) : list Condition :=
  [active_condition]
  ++ (match category filters with
      | Some c => if truthyS (Some c) then [category_condition c] else []
      | None => []
      end)
  ++ (match zoneId filters with
      | Some z => if truthyZ (Some z) then [zone_condition z] else []
      | None => []
      end)
  ++ (match search filters with
      | Some s => if truthyS (Some s) then [search_condition d s] else []
      | None => []
      end)
  ++ (match status filters with
      | Some s => status_conditions s
      | None => []
      end).

Definition where_all (cs : list Condition) (p : products.row) : bool :=
  is_true (sql_and_all (map (fun c => c p) cs)).

(** The rows a status filter keeps. *)
Definition status_holds (s : Status) (p : products.row) : bool :=
  where_all (status_conditions s) p.

Definition ProductWithZone : Type := products.row * option zones.row.

Definition getProducts (d : Dialect) (filters : Filters) (db : Db)
    : list ProductWithZone :=
  order_by (fun r => products.name (fst r))
    (filter (fun r => where_all (conditions d filters) (fst r))
       (left_join (fun p z => is_true (sql_eqZ (products.zoneId p) (Some (zones.id z))))
          (products_tbl db) (zones_tbl db))).

(** ** Dashboard ([DatabaseStorage.getDashboardMetrics]) *)

Record ZoneStatus := mkZoneStatus {
  zone : zones.row;
  itemCount : Z;
  capacity : Z
}.

(** [recentActivities], the ten latest movements joined with their
    product and user, is not part of this record. *)
Record Metrics := mkMetrics {
  totalItems : Z;
  lowStockItems : Z;
  outOfStockItems : Z;
  totalValue : Z;
  zoneStatus : list ZoneStatus
}.

Definition zoneStatusRow (group : list (zones.row * option products.row))
    : list ZoneStatus :=
  match group with
  | [] => []
  | (z, _) :: _ =>
      [mkZoneStatus z
         (coalesce (Some (count_col (map (fun r => option_map products.id (snd r)) group))) 0)
         (js_or0 (zones.capacity z))]
  end.

Definition getDashboardMetrics (d : Dialect) (db : Db) : Metrics :=
  let totalItems :=
    count_star (filter (fun p => is_true (active_condition p)) (products_tbl db)) in
  let lowStockItems :=
    count_star (filter (fun p => is_true (sql_and_all
      [active_condition p;
       sql_leZ (products.currentStock p) (products.minStock p);
       sql_gtZ (products.currentStock p) (Some 0)])) (products_tbl db)) in
  let outOfStockItems :=
    count_star (filter (fun p => is_true (sql_and_all
      [active_condition p;
       sql_eqZ (products.currentStock p) (Some 0)])) (products_tbl db)) in
  let totalValue :=
    cast_integer d (coalesce (sql_sum
      (map (fun p => sql_mul (products.currentStock p) (products.unitPrice p))
         (filter (fun p => is_true (active_condition p)) (products_tbl db)))) 0) in
  let zoneStatusResult :=
    order_by (fun r => zones.name (zone r))
      (flat_map zoneStatusRow
         (group_by (fun r => zones.id (fst r))
            (left_join (fun z p =>
                 is_true (sql_and (sql_eqZ (Some (zones.id z)) (products.zoneId p))
                                  (active_condition p)))
               (zones_tbl db) (products_tbl db)))) in
  mkMetrics totalItems lowStockItems outOfStockItems totalValue zoneStatusResult.

(** ** The behaviour the specification describes

    These definitions follow the words of the specification; the theorems
    below compare them with the queries above. *)

(** "[out_of_stock] iff [currentStock == 0]; [low_stock] iff
    [0 < currentStock <= minStock]; else [in_stock]" *)
Definition classifyStock (currentStock minStock : Z) : Status :=
  if currentStock =? 0 then out_of_stock
  else if (0 <? currentStock) && (currentStock <=? minStock) then low_stock
  else in_stock.

Definition Status_eqb (a b : Status) : bool :=
  match a, b with
  | all, all | in_stock, in_stock | low_stock, low_stock
  | out_of_stock, out_of_stock => true
  | _, _ => false
  end.

(** "case-insensitive substring match" *)
Fixpoint prefix_ci (s t : string) : bool :=
  match s with
  | EmptyString => true
  | String c s' =>
      match t with
      | EmptyString => false
      | String e t' => eqb_ci c e && prefix_ci s' t'
      end
  end.

Fixpoint contains_ci (s t : string) : bool :=
  prefix_ci s t
  || match t with
     | EmptyString => false
     | String _ t' => contains_ci s t'
     end.

(** "active products matching all given filters": an empty text and the
    zone number 0 count as no filter, like an absent one. *)
Definition spec_matches (filters : Filters) (p : products.row) : bool :=
  match products.isActive p with Some true => true | _ => false end
  && match category filters with
     | Some c => if truthyS (Some c) then String.eqb (products.category p) c else true
     | None => true
     end
  && match zoneId filters with
     | Some z =>
         if truthyZ (Some z) then
           match products.zoneId p with Some z' => z' =? z | None => false end
         else true
     | None => true
     end
  && match search filters with
     | Some s =>
         if truthyS (Some s) then
           contains_ci s (products.name p)
           || contains_ci s (products.productId p)
           || contains_ci s (products.category p)
         else true
     | None => true
     end
  && match status filters with
     | None | Some all => true
     | Some s =>
         Status_eqb
           (classifyStock (js_or0 (products.currentStock p)) (js_or0 (products.minStock p))) s
     end.

(** "[Σ currentStock × unitPrice] over active products", in hundredths. *)
Definition exactValue (db : Db) : Z :=
  fold_right Z.add 0
    (map (fun p => js_or0 (products.currentStock p) * js_or0 (products.unitPrice p))
       (filter (fun p => match products.isActive p with Some true => true | _ => false end)
          (products_tbl db))).

(** The data model of products: stock columns are non-negative integers. *)
Definition stock_wf (p : products.row) : Prop :=
  exists cs ms, products.currentStock p = Some cs /\ products.minStock p = Some ms
                /\ 0 <= cs /\ 0 <= ms.

(** A search text without [LIKE] metacharacters. *)
Definition plain_char (d : Dialect) (c : ascii) : bool :=
  negb (Ascii.eqb c "%") && negb (Ascii.eqb c "_") && negb (is_escape d c).

Fixpoint plain (d : Dialect) (s : string) : bool :=
  match s with
  | EmptyString => true
  | String c s' => plain_char d c && plain d s'
  end.

(** The zone a product row refers to. *)
Definition zoneOf (db : Db) (p : products.row) : option zones.row :=
  hd_error (filter (fun z => is_true (sql_eqZ (products.zoneId p) (Some (zones.id z))))
              (zones_tbl db)).

Definition activeIn (z : zones.row) (p : products.row) : bool :=
  match products.isActive p, products.zoneId p with
  | Some true, Some k => k =? zones.id z
  | _, _ => false
  end.

(** ** A small store used in the examples *)

Definition widget : products.row :=
  products.mk 1 "SKU-1" "abc" None "tools" (Some 7) (Some 3) (Some 10) (Some 25)
    (Some true) 1000 1000.

Definition retired : products.row :=
  products.mk 2 "SKU-2" "Bolt" None "parts" (Some 7) (Some 40) (Some 5) (Some 300)
    (Some false) 1000 1000.



Definition aisle : zones.row := zones.mk 7 "Aisle 7" None (Some 100) 1000 1000.
Definition dock : zones.row := zones.mk 8 "Dock" None None 1000 1000.

Definition shop : Db := mkDb [aisle; dock] [widget; retired] [] 0.



Definition underscore_search : Filters := mkFilters None None None (Some "_").

Definition tools_search : Filters :=
  mkFilters (Some "tools") (Some 7) (Some low_stock) (Some "sku").

(** * The rest of the storage layer

    The functions below are those of the libsql variant of
    [server/storage.ts] (the one [server/db.ts] connects).  The store has
    no counter for the keys of zones and products: the key the database
    assigns to a new row is an argument, and an insert under a key in use
    violates the primary key.  The constraints are those the schema
    declares ([primaryKey], [unique], [references], with
    [PRAGMA foreign_keys = ON]); a violation makes the statement throw.
    No caller reads the text of such an error. *)

Module users.
Record row := mk {
  id : string;
  email : string;
  password : string;
  firstName : option string;
  lastName : option string;
  profileImageUrl : option string;
  createdAt : Z;
  updatedAt : Z
}.
End users.

(** ** Zones ([getZones], [getZone], [createZone], [updateZone], [deleteZone]) *)

Definition getZones (db : Db) : list zones.row :=
  order_by zones.name (zones_tbl db).

Definition getZone (id : Z) (db : Db) : option zones.row :=
  hd_error (filter (fun z => zones.id z =? id) (zones_tbl db)).

(** [InsertZone]: [capacity] absent takes the column default 0, [null]
    is stored as NULL. *)
Module insertZone.
Record data := mk {
  name : string;
  description : option string;
  capacity : option (option Z)
}.
End insertZone.

(** [Partial<InsertZone>]: [None] is a key that is absent. *)
Module zonePatch.
Record data := mk {
  name : option string;
  description : option (option string);
  capacity : option (option Z)
}.
End zonePatch.

Definition or_else {A} (x : option A) (d : A) : A :=
  match x with Some v => v | None => d end.

Definition createZone (id : Z) (zone : insertZone.data) (now : Z) : Tx zones.row :=
  fun db =>
    if existsb (fun z => zones.id z =? id) (zones_tbl db) then
      (db, Throw "UNIQUE constraint failed: zones.id")
    else
      let row := zones.mk id (insertZone.name zone) (insertZone.description zone)
                   (or_else (insertZone.capacity zone) (Some 0)) now now in
      (mkDb (zones_tbl db ++ [row]) (products_tbl db) (movements_tbl db)
            (movements_seq db),
       Ok row).

Definition set_zone (patch : zonePatch.data) (now : Z) (z : zones.row) : zones.row :=
  zones.mk (zones.id z)
    (or_else (zonePatch.name patch) (zones.name z))
    (or_else (zonePatch.description patch) (zones.description z))
    (or_else (zonePatch.capacity patch) (zones.capacity z))
    (zones.createdAt z) now.

Definition updateZone (id : Z) (patch : zonePatch.data) (now : Z)
    : Tx (option zones.row) :=
  fun db =>
    let rows := map (fun z => if zones.id z =? id then set_zone patch now z else z)
                  (zones_tbl db) in
    (mkDb rows (products_tbl db) (movements_tbl db) (movements_seq db),
     Ok (hd_error (filter (fun z => zones.id z =? id) rows))).

(** [db.delete(zones).where(eq(zones.id, id))]: the row cannot go while
    a product, active or not, refers to it. *)
Definition deleteZone (id : Z) : Tx unit :=
  fun db =>
    if existsb (fun z => zones.id z =? id) (zones_tbl db)
       && existsb (fun p => is_true (sql_eqZ (products.zoneId p) (Some id)))
            (products_tbl db)
    then (db, Throw "FOREIGN KEY constraint failed")
    else
      (mkDb (filter (fun z => negb (zones.id z =? id)) (zones_tbl db))
            (products_tbl db) (movements_tbl db) (movements_seq db),
       Ok tt).

(** ** Products ([getProduct], [getProductByProductId], [createProduct],
       [updateProduct]) *)

Definition products_with_zones (db : Db) : list ProductWithZone :=
  left_join (fun p z => is_true (sql_eqZ (products.zoneId p) (Some (zones.id z))))
    (products_tbl db) (zones_tbl db).

Definition getProduct (id : Z) (db : Db) : option ProductWithZone :=
  hd_error (filter (fun r => products.id (fst r) =? id) (products_with_zones db)).

Definition getProductByProductId (productId : string) (db : Db)
    : option ProductWithZone :=
  hd_error (filter (fun r => String.eqb (products.productId (fst r)) productId)
              (products_with_zones db)).

(** [InsertProduct] as [insertProductSchema] yields it: the three
    numbers have their default 0 when absent; [isActive] absent takes the
    column default 1. *)
Module insertProduct.
Record data := mk {
  productId : string;
  name : string;
  description : option string;
  category : string;
  zoneId : option Z;
  currentStock : Z;
  minStock : Z;
  unitPrice : Z;
  isActive : option (option bool)
}.
End insertProduct.

(** [Partial<InsertProduct>]: [None] is a key that is absent. *)
Module productPatch.
Record data := mk {
  productId : option string;
  name : option string;
  description : option (option string);
  category : option string;
  zoneId : option Z;
  currentStock : option Z;
  minStock : option Z;
  unitPrice : option Z;
  isActive : option (option bool)
}.
End productPatch.

Definition zone_exists (z : option Z) (db : Db) : bool :=
  match z with
  | Some k => existsb (fun r => zones.id r =? k) (zones_tbl db)
  | None => true
  end.

Definition createProduct (id : Z) (product : insertProduct.data) (now : Z)
    : Tx products.row :=
  fun db =>
    if existsb (fun p => products.id p =? id) (products_tbl db) then
      (db, Throw "UNIQUE constraint failed: products.id")
    else if existsb (fun p => String.eqb (products.productId p)
                                (insertProduct.productId product)) (products_tbl db) then
      (db, Throw "UNIQUE constraint failed: products.product_id")
    else if negb (zone_exists (insertProduct.zoneId product) db) then
      (db, Throw "FOREIGN KEY constraint failed")
    else
      let row := products.mk id (insertProduct.productId product)
                   (insertProduct.name product) (insertProduct.description product)
                   (insertProduct.category product) (insertProduct.zoneId product)
                   (Some (insertProduct.currentStock product))
                   (Some (insertProduct.minStock product))
                   (Some (insertProduct.unitPrice product))
                   (or_else (insertProduct.isActive product) (Some true))
                   now now in
      (mkDb (zones_tbl db) (products_tbl db ++ [row]) (movements_tbl db)
            (movements_seq db),
       Ok row).

Definition some_or {A} (x : option A) (old : option A) : option A :=
  match x with Some v => Some v | None => old end.

(** [.set({ ...product, updatedAt: Date.now() })] *)
Definition set_product (patch : productPatch.data) (now : Z) (p : products.row)
    : products.row :=
  products.mk (products.id p)
    (or_else (productPatch.productId patch) (products.productId p))
    (or_else (productPatch.name patch) (products.name p))
    (or_else (productPatch.description patch) (products.description p))
    (or_else (productPatch.category patch) (products.category p))
    (some_or (productPatch.zoneId patch) (products.zoneId p))
    (some_or (productPatch.currentStock patch) (products.currentStock p))
    (some_or (productPatch.minStock patch) (products.minStock p))
    (some_or (productPatch.unitPrice patch) (products.unitPrice p))
    (or_else (productPatch.isActive patch) (products.isActive p))
    (products.createdAt p) now.

Definition updateProduct (id : Z) (patch : productPatch.data) (now : Z)
    : Tx (option products.row) :=
  fun db =>
    if negb (existsb (fun p => products.id p =? id) (products_tbl db)) then
      (db, Ok None)
    else if match productPatch.productId patch with
            | Some s => existsb (fun p => negb (products.id p =? id)
                                          && String.eqb (products.productId p) s)
                          (products_tbl db)
            | None => false
            end then
      (db, Throw "UNIQUE constraint failed: products.product_id")
    else if negb (zone_exists (productPatch.zoneId patch) db) then
      (db, Throw "FOREIGN KEY constraint failed")
    else
      let rows := map (fun p => if products.id p =? id then set_product patch now p else p)
                    (products_tbl db) in
      (mkDb (zones_tbl db) rows (movements_tbl db) (movements_seq db),
       Ok (hd_error (filter (fun p => products.id p =? id) rows))).

(** ** Movements ([createMovement], [getMovements]) *)

Module insertMovement.
Record data := mk {
  productId : Z;
  type : MovementType;
  quantity : Z;
  previousStock : Z;
  newStock : Z;
  reason : option string;
  userId : option string
}.
End insertMovement.

(** The users table is outside the store: the reference of [userId] is
    not checked here. *)
Definition createMovement (movement : insertMovement.data) (now : Z)
    : Tx movements.row :=
  fun db =>
    if negb (existsb (fun p => products.id p =? insertMovement.productId movement)
               (products_tbl db)) then
      (db, Throw "FOREIGN KEY constraint failed")
    else
      let next := movements_seq db + 1 in
      let row := movements.mk next (insertMovement.productId movement)
                   (insertMovement.type movement) (insertMovement.quantity movement)
                   (insertMovement.previousStock movement)
                   (insertMovement.newStock movement)
                   (insertMovement.reason movement) (insertMovement.userId movement)
                   now in
      (mkDb (zones_tbl db) (products_tbl db) (movements_tbl db ++ [row]) next,
       Ok row).

(** [ORDER BY desc(key)] on an integer column. *)
Fixpoint insert_desc {A} (key : A -> Z) (x : A) (l : list A) : list A :=
  match l with
  | [] => [x]
  | y :: rest =>
      if key y <=? key x then x :: y :: rest
      else y :: insert_desc key x rest
  end.

Definition order_by_desc {A} (key : A -> Z) (l : list A) : list A :=
  fold_right (insert_desc key) [] l.

Definition key_ge {A} (key : A -> Z) (a b : A) : Prop := key b <= key a.

(** [LIMIT n]; SQLite reads a negative [n] as no limit. *)
Definition sql_limit {A} (n : Z) (l : list A) : list A :=
  if n <? 0 then l else firstn (Z.to_nat n) l.

Definition MovementWithProduct : Type :=
  movements.row * option products.row * option users.row.

Definition getMovements (users_tbl : list users.row) (productId limit : option Z)
    (db : Db) : list MovementWithProduct :=
  sql_limit (or_else limit 50)
    (order_by_desc (fun r => movements.createdAt (fst (fst r)))
       (filter (fun r =>
            if truthyZ productId
            then is_true (sql_eqZ (Some (movements.productId (fst (fst r)))) productId)
            else true)
          (left_join (fun r u =>
               is_true (sql_eqS (movements.userId (fst r)) (Some (users.id u))))
             (left_join (fun m p => movements.productId m =? products.id p)
                (movements_tbl db) (products_tbl db))
             users_tbl))).

(** The rows [getMovements] selects from. *)
Definition requested (productId : option Z) (m : movements.row) : bool :=
  match productId with
  | Some k => if k =? 0 then true else movements.productId m =? k
  | None => true
  end.

(** ** The product routes ([POST /api/products], [GET /api/products/:id]) *)

Inductive ProductReply :=
| Sent (statusCode : Z) (product : products.row)
| Refused (response : Response).

(** [parsed] is what [insertProductSchema.parse(req.body)] returns, [None]
    when it throws a [ZodError]; [user] is [req.user.id]. *)
Definition products_create_route (id : Z) (parsed : option insertProduct.data)
    (user : string) (now : Z) (db : Db) : Db * ProductReply :=
  match parsed with
  | None => (db, Refused (mkResponse 400 "Invalid product data"))
  | Some productData =>
      match createProduct id productData now db with
      | (db1, Throw _) => (db1, Refused (mkResponse 500 "Failed to create product"))
      | (db1, Ok product) =>
          if truthyZ (Some (insertProduct.currentStock productData))
             && (insertProduct.currentStock productData >? 0)
          then
            match createMovement
                    (insertMovement.mk (products.id product) IN
                       (insertProduct.currentStock productData) 0
                       (insertProduct.currentStock productData)
                       (Some "Initial stock") (Some user)) now db1 with
            | (db2, Ok _) => (db2, Sent 201 product)
            | (db2, Throw _) => (db2, Refused (mkResponse 500 "Failed to create product"))
            end
          else (db1, Sent 201 product)
      end
  end.

Definition products_get_route (id : Z) (db : Db) : Response + ProductWithZone :=
  match getProduct id db with
  | None => inl (mkResponse 404 "Product not found")
  | Some product => inr product
  end.

(** ** The mutating operations of [IStorage] as commands *)

Inductive StorageOp :=
| CreateZone (id : Z) (zone : insertZone.data) (now : Z)
| UpdateZone (id : Z) (patch : zonePatch.data) (now : Z)
| DeleteZone (id : Z)
| CreateProduct (id : Z) (product : insertProduct.data) (now : Z)
| UpdateProduct (id : Z) (patch : productPatch.data) (now : Z)
| DeleteProduct (id : Z)
| CreateMovement (movement : insertMovement.data) (now : Z)
| UpdateStock (id quantity : Z) (type : MovementType) (reason userId : option string)
    (now : Z).

(** The store an operation leaves, whether it returns or throws. *)
Definition exec (op : StorageOp) (db : Db) : Db :=
  match op with
  | CreateZone id zone now => fst (createZone id zone now db)
  | UpdateZone id patch now => fst (updateZone id patch now db)
  | DeleteZone id => fst (deleteZone id db)
  | CreateProduct id product now => fst (createProduct id product now db)
  | UpdateProduct id patch now => fst (updateProduct id patch now db)
  | DeleteProduct id => deleteProduct id db
  | CreateMovement movement now => fst (createMovement movement now db)
  | UpdateStock id q type reason userId now =>
      fst (updateStock id q type reason userId now db)
  end.

Definition execAll (ops : list StorageOp) (db : Db) : Db :=
  fold_left (fun s op => exec op s) ops db.

(** Every reference of a row resolves: the zone of a product and the
    product of a movement exist. *)
Definition references_resolve (db : Db) : Prop :=
  (forall p, In p (products_tbl db) -> zone_exists (products.zoneId p) db = true)
  /\ (forall m, In m (movements_tbl db) ->
        existsb (fun p => products.id p =? movements.productId m) (products_tbl db) = true).

(** Stock columns that are set are never negative. *)
Definition stock_nonneg (db : Db) : Prop :=
  Forall (fun p => 0 <= js_or0 (products.currentStock p)) (products_tbl db).

(** ** The views of the client and of the reports *)

(** JavaScript's relational operators read [null] as 0. *)
Definition js_num (x : option Z) : Z := js_or0 x.

(** [getStockStatus] of [inventory-table.tsx] (and the badge of the
    report tables): [currentStock === 0] is strict. *)
Definition getStockStatus (p : products.row) : Status :=
  match products.currentStock p with
  | Some 0 => out_of_stock
  | cs =>
      if js_num cs <=? js_num (products.minStock p) then low_stock else in_stock
  end.

(** The text of the badge [getStatusBadge] renders. *)
Definition badgeText (s : Status) : string :=
  match s with
  | in_stock => "In Stock"
  | low_stock => "Low Stock"
  | out_of_stock => "Out of Stock"
  | all => "Unknown"
  end.

(** The ['Status'] cell of [generateExcelReport] and [generatePDFReport]. *)
Definition reportStatus (item : products.row) : string :=
  if js_num (products.currentStock item) >? js_num (products.minStock item)
  then "In Stock"
  else if js_num (products.currentStock item) >? 0 then "Low Stock"
  else "Out of Stock".

(** ** Report data ([generateReportData]) *)

Record ReportFilters := mkReportFilters {
  startDate : option Z;
  endDate : option Z;
  report_zoneId : option Z;
  report_category : option string;
  report_status : option Status;
  report_productId : option string
}.

Record ReportData := mkReportData {
  inventory : list ProductWithZone;
  report_movements : list MovementWithProduct;
  report_zones : list zones.row;
  report_lowStockItems : list ProductWithZone;
  report_outOfStockItems : list ProductWithZone;
  metrics : Metrics
}.

(** [startDate] and [endDate] hold the instants [new Date(...)] reads
    from the filter texts, [None] for an absent, empty or unreadable one
    (every comparison with an invalid date is false). *)
Definition generateReportData (d : Dialect) (users_tbl : list users.row)
    (filters : ReportFilters) (db : Db) : ReportData :=
  mkReportData
    (getProducts d (mkFilters (report_category filters) (report_zoneId filters)
                      (report_status filters) (report_productId filters)) db)
    (filter (fun r =>
         negb (match startDate filters with
               | Some s => movements.createdAt (fst (fst r)) <? s
               | None => false
               end)
         && negb (match endDate filters with
                  | Some e => movements.createdAt (fst (fst r)) >? e
                  | None => false
                  end))
       (getMovements users_tbl None (Some 1000) db))
    (getZones db)
    (getProducts d (mkFilters None None (Some low_stock) None) db)
    (getProducts d (mkFilters None None (Some out_of_stock) None) db)
    (getDashboardMetrics d db).

(** ** More of the example store *)

Definition gadget : insertProduct.data :=
  insertProduct.mk "SKU-3" "Gadget" None "tools" (Some 8) 5 2 150 None.

Definition gadget_row : products.row :=
  products.mk 3 "SKU-3" "Gadget" None "tools" (Some 8) (Some 5) (Some 2) (Some 150)
    (Some true) 2000 2000.

Definition shop_with_gadget : Db :=
  mkDb [aisle; dock] [widget; retired; gadget_row]
    [movements.mk 1 3 IN 5 0 5 (Some "Initial stock") (Some "u1") 2000] 1.

Definition ann : users.row :=
  users.mk "u1" "ann@example.org" "hash" (Some "Ann") None None 1000 1000.

Definition busy_shop : Db :=
  mkDb [aisle; dock] [widget; retired]
    [movements.mk 1 1 IN 3 0 3 (Some "Initial stock") (Some "u1") 1000;
     movements.mk 2 2 IN 40 0 40 None None 1500;
     movements.mk 3 1 OUT 1 3 2 (Some "sale") (Some "u9") 1800] 3.

(** * Properties *)

(** ** The ledger *)

Section Ledger.

Lemma js_number_exact z : Z.abs z <= 2 ^ 53 -> js_number z = z.
Proof.
  intros H. unfold js_number. cbv zeta.
  destruct (Z.leb_spec (Z.abs z) (2 ^ 53)); [reflexivity|lia].
Qed.

Lemma computeNewStock_exact previous q ty :
  int4 previous -> int4 q ->
  computeNewStock previous q ty
  = match ty with IN => previous + q | OUT => previous - q end.
Proof.
  unfold int4. intros Hp Hq.
  assert (H53 : 2 ^ 53 = 9007199254740992) by reflexivity.
  destruct ty; unfold computeNewStock; apply js_number_exact; lia.
Qed.

Lemma findProduct_rows id db p :
  findProduct id db = Some p ->
  exists rest, filter (fun r => products.id r =? id) (products_tbl db) = p :: rest.
Proof.
  unfold findProduct.
  destruct (filter _ (products_tbl db)) as [|r rest]; simpl; intros H.
  - discriminate.
  - injection H as ->. now exists rest.
Qed.

Lemma findProduct_none id db :
  findProduct id db = None ->
  filter (fun r => products.id r =? id) (products_tbl db) = [].
Proof.
  unfold findProduct.
  destruct (filter _ (products_tbl db)); simpl; [reflexivity | discriminate].
Qed.

Lemma updateStock_found db id q ty r u now p :
  findProduct id db = Some p ->
  updateStock id q ty r u now db =
    if computeNewStock (js_or0 (products.currentStock p)) q ty <? 0
    then (db, Throw "Insufficient stock")
    else (committed db id q ty r u now p, Ok tt).
Proof.
  intros H. destruct (findProduct_rows _ _ _ H) as [rest Hrows].
  unfold updateStock, transaction, bind, tx_select_product.
  rewrite Hrows.
  destruct (computeNewStock _ q ty <? 0); reflexivity.
Qed.

Lemma updateStock_missing db id q ty r u now :
  findProduct id db = None ->
  updateStock id q ty r u now db = (db, Throw "Product not found").
Proof.
  intros H. apply findProduct_none in H.
  unfold updateStock, transaction, bind, tx_select_product.
  now rewrite H.
Qed.

Lemma updateStock_ok_inv db id q ty r u now db' :
  updateStock id q ty r u now db = (db', Ok tt) ->
  exists p, findProduct id db = Some p
    /\ 0 <= computeNewStock (js_or0 (products.currentStock p)) q ty
    /\ db' = committed db id q ty r u now p.
Proof.
  intros H. destruct (findProduct id db) as [p|] eqn:Hp.
  - rewrite (updateStock_found _ _ _ _ _ _ _ _ Hp) in H.
    destruct (Z.ltb_spec (computeNewStock (js_or0 (products.currentStock p)) q ty) 0).
    + discriminate.
    + injection H as <-. now exists p.
  - rewrite (updateStock_missing _ _ _ _ _ _ _ Hp) in H. discriminate.
Qed.

Lemma filter_updated id k (set : products.row -> products.row) rows :
  (forall r, products.id (set r) = products.id r) ->
  filter (fun r => products.id r =? k)
    (map (fun r => if products.id r =? id then set r else r) rows)
  = map (fun r => if products.id r =? id then set r else r)
      (filter (fun r => products.id r =? k) rows).
Proof.
  intros Hid. induction rows as [|r rows IH]; simpl; [reflexivity|].
  assert (Hk : (products.id (if products.id r =? id then set r else r) =? k)
               = (products.id r =? k)).
  { destruct (products.id r =? id); [now rewrite Hid | reflexivity]. }
  rewrite Hk. destruct (products.id r =? k); simpl; now rewrite IH.
Qed.

Lemma findProduct_committed db id q ty r u now p k :
  findProduct k (committed db id q ty r u now p)
  = option_map
      (fun row => if products.id row =? id
                  then set_stock (computeNewStock (js_or0 (products.currentStock p)) q ty) now row
                  else row)
      (findProduct k db).
Proof.
  unfold findProduct, committed; simpl.
  rewrite filter_updated by reflexivity.
  now destruct (filter _ (products_tbl db)).
Qed.

Lemma findProduct_id id db p : findProduct id db = Some p -> products.id p = id.
Proof.
  intros H. destruct (findProduct_rows _ _ _ H) as [rest Hrows].
  assert (Hin : In p (filter (fun r => products.id r =? id) (products_tbl db)))
    by (rewrite Hrows; now left).
  apply filter_In in Hin. now apply Z.eqb_eq.
Qed.

Lemma net_app ms m : net (ms ++ [m]) = net ms + signed m.
Proof. induction ms as [|x ms IH]; simpl; lia. Qed.

Lemma movementsOf_committed db id q ty r u now p k :
  movementsOf k (committed db id q ty r u now p)
  = movementsOf k db ++
    (if id =? k
     then [movements.mk (movements_seq db + 1) id ty q (js_or0 (products.currentStock p))
             (computeNewStock (js_or0 (products.currentStock p)) q ty)
             (js_or_null r) (js_or_null u) now]
     else []).
Proof.
  unfold movementsOf, committed; simpl. rewrite filter_app; simpl.
  now destruct (id =? k).
Qed.

End Ledger.

(** C1. When the computed [newStock] is negative, [updateStock] throws
    "Insufficient stock" and the store after the call is the store before
    it: the product row keeps [currentStock] and [updatedAt], and the
    movement table gets no row. *)
Theorem updateStock_insufficient_stock :
  forall db id quantity type reason userId now p,
    findProduct id db = Some p ->
    computeNewStock (js_or0 (products.currentStock p)) quantity type < 0 ->
    updateStock id quantity type reason userId now db = (db, Throw "Insufficient stock").
Proof.
  intros db id q ty r u now p Hp Hneg.
  rewrite (updateStock_found _ _ _ _ _ _ _ _ Hp).
  apply Z.ltb_lt in Hneg. now rewrite Hneg.
Qed.

Lemma updateStock_insufficient_stock_witness :
  updateStock 1 5 OUT None None 2000 shop = (shop, Throw "Insufficient stock").
Proof.
  apply (updateStock_insufficient_stock shop 1 5 OUT None None 2000 widget).
  - reflexivity.
  - reflexivity.
Defined.



(** ** The ledger invariant over runs of calls *)

Section LedgerInvariant.

Variable k : Z.
Variable base : Z.

Lemma latestNewStock_app ms m d :
  latestNewStock (ms ++ [m]) d = movements.newStock m.
Proof. unfold latestNewStock. rewrite map_app; simpl. apply last_last. Qed.

Lemma signed_step previous q ty id seq r u now :
  int4 previous -> int4 q ->
  signed (movements.mk seq id ty q previous (computeNewStock previous q ty) r u now)
  = computeNewStock previous q ty - previous.
Proof.
  intros Hp Hq. rewrite (computeNewStock_exact _ _ _ Hp Hq).
  destruct ty; unfold signed; simpl; lia.
Qed.

Lemma balanced_step db c db' :
  applyCall c db = (db', Ok tt) -> call_in_range c db ->
  balanced k base db -> balanced k base db'.
Proof.
  unfold applyCall, call_in_range. intros Hcall [Hq Hrange] (s & Hread & Hlast & Hsum).
  destruct (updateStock_ok_inv _ _ _ _ _ _ _ _ Hcall) as (p & Hp & Hpos & ->).
  rewrite Hp in Hrange. destruct Hrange as [Hprev _].
  pose proof (findProduct_id _ _ _ Hp) as Hid.
  unfold balanced, readStock.
  rewrite findProduct_committed, movementsOf_committed.
  destruct (Z.eqb_spec (call_product c) k) as [Heq|Hne].
  - subst k. unfold readStock in Hread. rewrite Hp in Hread. simpl in Hread.
    injection Hread as Hs.
    rewrite Hp; simpl. rewrite Hid, Z.eqb_refl; simpl.
    eexists. split; [reflexivity|].
    split; [apply latestNewStock_app|].
    rewrite net_app, (signed_step _ _ _ _ _ _ _ _ Hprev Hq). lia.
  - rewrite app_nil_r.
    unfold readStock in Hread.
    destruct (findProduct k db) as [row|] eqn:Hrow; [|discriminate].
    simpl in Hread. injection Hread as Hs.
    pose proof (findProduct_id _ _ _ Hrow) as Hrid.
    simpl. rewrite Hrid.
    destruct (Z.eqb_spec k (call_product c)) as [Habs|_]; [congruence|].
    exists s. now rewrite Hs.
Qed.


End LedgerInvariant.




(** ** Soft delete *)

(** C10. [deleteProduct] leaves the zone and movement tables and the
    movement counter as they are, keeps every product row in its place,
    and in each row changes no column but [isActive], which becomes
    [false] in the rows with the given id: [currentStock] and [updatedAt]
    in particular keep their values. *)
Theorem deleteProduct_changes_only_isActive :
  forall id db,
    movements_tbl (deleteProduct id db) = movements_tbl db
    /\ movements_seq (deleteProduct id db) = movements_seq db
    /\ zones_tbl (deleteProduct id db) = zones_tbl db
    /\ forall i,
         let before := nth_error (products_tbl db) i in
         let after := nth_error (products_tbl (deleteProduct id db)) i in
         option_map products.id after = option_map products.id before
         /\ option_map products.productId after = option_map products.productId before
         /\ option_map products.name after = option_map products.name before
         /\ option_map products.description after = option_map products.description before
         /\ option_map products.category after = option_map products.category before
         /\ option_map products.zoneId after = option_map products.zoneId before
         /\ option_map products.currentStock after = option_map products.currentStock before
         /\ option_map products.minStock after = option_map products.minStock before
         /\ option_map products.unitPrice after = option_map products.unitPrice before
         /\ option_map products.createdAt after = option_map products.createdAt before
         /\ option_map products.updatedAt after = option_map products.updatedAt before
         /\ option_map products.isActive after
            = option_map (fun p => if products.id p =? id then Some false
                                   else products.isActive p) before.
Proof.
  intros id db. repeat (split; [reflexivity|]).
  intros i before after. subst before after.
  unfold deleteProduct; simpl. rewrite nth_error_map.
  destruct (nth_error (products_tbl db) i) as [p|]; simpl.
  - destruct (products.id p =? id); simpl; repeat split.
  - repeat split.
Qed.

(** ** The stock route *)

(** C3. The route rejects a zero quantity with status 400 and writes
    nothing, but a negative quantity passes the guard [!quantity]: on the
    example store the request [{quantity: -2, type: "IN"}] is answered
    with status 200, lowers the stock from 3 to 1 and records a movement
    row of quantity -2. *)
Theorem stock_route_negative_quantity :
  (forall id type reason user now db,
     stock_route id (mkStockBody (Some 0) type reason) user now db
     = (db, mkResponse 400 "Invalid stock update data"))
  /\ exists db',
       stock_route 1 (mkStockBody (Some (-2)) (Some "IN") None) None 2000 shop
       = (db', mkResponse 200 "Stock updated successfully")
       /\ option_map products.currentStock (findProduct 1 db') = Some (Some 1)
       /\ movements_tbl db' = [movements.mk 1 1 IN (-2) 3 1 None None 2000].
Proof.
  split.
  - reflexivity.
  - eexists. repeat split.
Qed.

(** C6. The route does not map the errors of [updateStock] as the
    taxonomy says: its single [catch] answers every thrown error with
    status 500.  On the example store a request for a product that does
    not exist is answered with status 500, not 404 (the sibling
    [GET /api/products/:id] answers 404 for the same miss), and an OUT
    that exceeds the stock is answered with status 500, not a 4xx; the
    store is unchanged in both cases. *)
Lemma stock_route_errors_not_4xx :
  findProduct 99 shop = None
  /\ statusCode (snd (stock_route 99 (mkStockBody (Some 5) (Some "OUT") None)
                        None 2000 shop)) <> 404
  /\ updateStock 1 5 OUT None None 2000 shop = (shop, Throw "Insufficient stock")
  /\ ~ (400 <= statusCode (snd (stock_route 1 (mkStockBody (Some 5) (Some "OUT") None)
                                  None 2000 shop)) < 500)
  /\ stock_route 99 (mkStockBody (Some 5) (Some "OUT") None) None 2000 shop
     = (shop, mkResponse 500 "Product not found")
  /\ stock_route 1 (mkStockBody (Some 5) (Some "OUT") None) None 2000 shop
     = (shop, mkResponse 500 "Insufficient stock")
  /\ products_get_route 99 shop = inl (mkResponse 404 "Product not found").
Proof.
  repeat split; try reflexivity; vm_compute.
  - discriminate.
  - intros [_ H]. discriminate H.
Qed.

(** ** Stock classification *)

Section Classification.



Lemma status_classify p cs ms s :
  products.currentStock p = Some cs -> products.minStock p = Some ms ->
  0 <= cs -> 0 <= ms -> s <> all ->
  status_holds s p = Status_eqb (classifyStock cs ms) s.
Proof.
  intros Hcs Hms Hc Hm Hs.
  unfold status_holds, where_all, classifyStock.
  destruct s; simpl; [congruence| | |]; rewrite Hcs; try rewrite Hms; simpl;
    unfold Z.gtb;
    destruct (Z.eqb_spec cs 0), (Z.ltb_spec 0 cs), (Z.leb_spec cs ms),
             (Z.compare_spec cs ms), (Z.compare_spec cs 0);
    simpl; try reflexivity; lia.
Qed.

End Classification.

(** ** Total value *)

Section TotalValue.

Lemma sql_sum_from acc col :
  coalesce (fold_left (fun acc v =>
              match v, acc with
              | Some x, Some a => Some (a + x)
              | Some x, None => Some x
              | None, _ => acc
              end) col acc) 0
  = coalesce acc 0 + fold_right Z.add 0 (map (fun v => coalesce v 0) col).
Proof.
  revert acc. induction col as [|v col IH]; intros acc; simpl.
  - lia.
  - rewrite IH. destruct v as [x|], acc as [a|]; simpl; lia.
Qed.

Lemma sql_sum_exact col :
  coalesce (sql_sum col) 0 = fold_right Z.add 0 (map (fun v => coalesce v 0) col).
Proof. unfold sql_sum. now rewrite sql_sum_from. Qed.

Lemma active_condition_true p :
  is_true (active_condition p)
  = match products.isActive p with Some true => true | _ => false end.
Proof. unfold active_condition. now destruct (products.isActive p) as [[|]|]. Qed.

Lemma summed_exact db :
  coalesce (sql_sum
    (map (fun p => sql_mul (products.currentStock p) (products.unitPrice p))
       (filter (fun p => is_true (active_condition p)) (products_tbl db)))) 0
  = exactValue db.
Proof.
  rewrite sql_sum_exact. unfold exactValue.
  rewrite (filter_ext _ _ active_condition_true), map_map.
  f_equal. apply map_ext. intros p.
  destruct (products.currentStock p), (products.unitPrice p); simpl; lia.
Qed.

End TotalValue.

(** C5, as stated, fails: the example store holds one active product,
    3 units at 0.25, so the exact value is 0.75 (75 hundredths), and
    [totalValue] is a whole number on both back ends (1 on PostgreSQL,
    0 on SQLite). *)
Lemma totalValue_is_not_exact :
  exactValue shop = 75
  /\ 100 * totalValue (getDashboardMetrics Postgres shop) <> exactValue shop
  /\ 100 * totalValue (getDashboardMetrics SQLite shop) <> exactValue shop.
Proof.
  split; [reflexivity|]. split; vm_compute; discriminate.
Qed.

(** C5, amended.  On PostgreSQL, where [unitPrice] is a
    [decimal(10,2)], [totalValue] is the sum of
    [currentStock × unitPrice] over the products with [isActive] true,
    rounded to the nearest integer by the query's [cast(... as integer)],
    halves away from zero, whenever that integer fits the integer type.
    On both back ends products that are not active contribute nothing,
    whatever their stock. *)
Theorem totalValue_is_cast_of_active_sum :
  forall db,
    (int4 (totalValue (getDashboardMetrics Postgres db)) ->
     (0 <= exactValue db ->
      100 * totalValue (getDashboardMetrics Postgres db) - 50 <= exactValue db
      /\ exactValue db < 100 * totalValue (getDashboardMetrics Postgres db) + 50)
     /\ (exactValue db < 0 ->
         100 * totalValue (getDashboardMetrics Postgres db) - 50 < exactValue db
         /\ exactValue db <= 100 * totalValue (getDashboardMetrics Postgres db) + 50))
    /\ forall d,
         totalValue (getDashboardMetrics d db)
         = totalValue (getDashboardMetrics d
             (mkDb (zones_tbl db)
                   (filter (fun p => is_true (active_condition p)) (products_tbl db))
                   (movements_tbl db) (movements_seq db))).
Proof.
  intros db. split.
  - intros _.
    assert (Hv : totalValue (getDashboardMetrics Postgres db)
                 = cast_integer Postgres (exactValue db)).
    { simpl. now rewrite summed_exact. }
    rewrite Hv. unfold cast_integer. split; intros Hsign.
    + destruct (Z.leb_spec 0 (exactValue db)); [|lia].
      pose proof (Z.div_mod (exactValue db + 50) 100 ltac:(lia)).
      pose proof (Z.mod_pos_bound (exactValue db + 50) 100 ltac:(lia)). lia.
    + destruct (Z.leb_spec 0 (exactValue db)); [lia|].
      pose proof (Z.div_mod (- exactValue db + 50) 100 ltac:(lia)).
      pose proof (Z.mod_pos_bound (- exactValue db + 50) 100 ltac:(lia)). lia.
  - intros d. simpl. f_equal. f_equal. f_equal. f_equal.
    induction (products_tbl db) as [|p l IH]; simpl; [reflexivity|].
    destruct (is_true (active_condition p)) eqn:Hp; simpl.
    + rewrite Hp. now f_equal.
    + exact IH.
Qed.

Lemma totalValue_is_cast_of_active_sum_witness :
  (0 <= exactValue shop ->
   100 * totalValue (getDashboardMetrics Postgres shop) - 50 <= exactValue shop
   /\ exactValue shop < 100 * totalValue (getDashboardMetrics Postgres shop) + 50)
  /\ (exactValue shop < 0 ->
      100 * totalValue (getDashboardMetrics Postgres shop) - 50 < exactValue shop
      /\ exactValue shop <= 100 * totalValue (getDashboardMetrics Postgres shop) + 50).
Proof.
  apply (proj1 (totalValue_is_cast_of_active_sum shop)).
  unfold int4. vm_compute. split; discriminate.
Defined.

(** ** Ordering *)

Section OrderBy.

Context {A : Type}.
Variable key : A -> string.

Local Abbreviation le := (key_le key).

Lemma insert_by_perm x l : Permutation (insert_by key x l) (x :: l).
Proof.
  induction l as [|y l IH]; simpl.
  - apply Permutation_refl.
  - destruct (String.leb (key x) (key y)).
    + apply Permutation_refl.
    + eapply perm_trans; [apply perm_skip, IH | apply perm_swap].
Qed.

Lemma order_by_perm l : Permutation (order_by key l) l.
Proof.
  induction l as [|x l IH]; simpl.
  - apply perm_nil.
  - eapply perm_trans; [apply insert_by_perm | now apply perm_skip].
Qed.

Lemma insert_by_hd x y l :
  le y x -> HdRel le y l -> HdRel le y (insert_by key x l).
Proof.
  intros Hyx Hl. destruct l as [|z l]; simpl.
  - now constructor.
  - destruct (String.leb (key x) (key z)); constructor; [assumption|].
    now inversion Hl.
Qed.

Lemma insert_by_sorted x l : Sorted le l -> Sorted le (insert_by key x l).
Proof.
  induction 1 as [|y l Hs IH Hhd]; simpl.
  - repeat constructor.
  - destruct (String.leb (key x) (key y)) eqn:Hxy.
    + constructor; [now constructor | now constructor].
    + constructor; [exact IH|].
      apply insert_by_hd; [|exact Hhd].
      destruct (String.leb_total (key x) (key y)) as [H|H]; [congruence|exact H].
Qed.

Lemma order_by_sorted l : Sorted le (order_by key l).
Proof.
  induction l as [|x l IH]; simpl.
  - constructor.
  - now apply insert_by_sorted.
Qed.

End OrderBy.

(** ** Joins and groups *)

Section Grouping.

Lemma filter_keep_all {A} (f : A -> bool) l :
  (forall x, In x l -> f x = true) -> filter f l = l.
Proof.
  induction l as [|x l IH]; simpl; intros H; [reflexivity|].
  rewrite (H x (or_introl eq_refl)). f_equal. apply IH. intros y Hy. apply H. now right.
Qed.

Lemma filter_drop_all {A} (f : A -> bool) l :
  (forall x, In x l -> f x = false) -> filter f l = [].
Proof.
  induction l as [|x l IH]; simpl; intros H; [reflexivity|].
  rewrite (H x (or_introl eq_refl)). apply IH. intros y Hy. apply H. now right.
Qed.

Lemma filter_flat_map {A B} (f : B -> bool) (g : A -> list B) l :
  filter f (flat_map g l) = flat_map (fun a => filter f (g a)) l.
Proof.
  induction l as [|a l IH]; simpl; [reflexivity|].
  now rewrite filter_app, IH.
Qed.

Lemma distinct_incl l y : In y (distinct l) -> In y l.
Proof.
  induction l as [|x l IH]; simpl; [tauto|].
  intros [->|H]; [now left|]. apply filter_In in H. right. apply IH, H.
Qed.

Lemma distinct_block l1 l2 x :
  l1 <> [] -> (forall y, In y l1 -> y = x) -> ~ In x l2 ->
  distinct (l1 ++ l2) = x :: distinct l2.
Proof.
  intros Hne Hall Hnot.
  assert (Hid : filter (fun y => negb (y =? x)) (distinct l2) = distinct l2).
  { apply filter_keep_all. intros y Hy. apply negb_true_iff, Z.eqb_neq.
    intros ->. apply Hnot, distinct_incl, Hy. }
  induction l1 as [|a l1 IH]; [congruence|].
  assert (a = x) as -> by (apply Hall; now left).
  change (x :: filter (fun y => negb (y =? x)) (distinct (l1 ++ l2)) = x :: distinct l2).
  f_equal. destruct l1 as [|b l1].
  - exact Hid.
  - rewrite IH.
    + simpl. rewrite Z.eqb_refl; simpl. exact Hid.
    + discriminate.
    + intros y Hy. apply Hall. now right.
Qed.

Variables (L R : Type).
Variable on : L -> R -> bool.
Variable right_rows : list R.
Variable key : L -> Z.

Local Abbreviation joined := (joined_with on right_rows).

Lemma joined_with_left a r : In r (joined a) -> fst r = a.
Proof.
  unfold joined_with. destruct (filter (on a) right_rows) as [|b l].
  - intros [<-|[]]. reflexivity.
  - intros H. apply in_map_iff in H. destruct H as (c & <- & _). reflexivity.
Qed.

Lemma joined_with_nonempty a : joined a <> [].
Proof.
  unfold joined_with. destruct (filter (on a) right_rows); discriminate.
Qed.

Lemma joined_with_count {B} (col : R -> B) a :
  count_col (map (fun r => option_map col (snd r)) (joined a))
  = count_star (filter (on a) right_rows).
Proof.
  unfold joined_with, count_col, count_star.
  destruct (filter (on a) right_rows) as [|b l] eqn:Hf; [reflexivity|].
  rewrite <- Hf. clear Hf. f_equal. f_equal.
  induction (filter (on a) right_rows) as [|c m IH]; simpl; [reflexivity|].
  now rewrite IH.
Qed.

Lemma left_join_blocks l : left_join on l right_rows = flat_map joined l.
Proof. reflexivity. Qed.

Lemma join_keys l :
  forall k, In k (map (fun r => key (fst r)) (flat_map joined l)) ->
            In k (map key l).
Proof.
  intros k Hk. apply in_map_iff in Hk. destruct Hk as (r & <- & Hr).
  apply in_flat_map in Hr. destruct Hr as (a & Ha & Hr).
  rewrite (joined_with_left _ _ Hr). now apply in_map.
Qed.

Lemma distinct_join_keys l :
  NoDup (map key l) ->
  distinct (map (fun r => key (fst r)) (flat_map joined l)) = map key l.
Proof.
  induction l as [|a l IH]; simpl; intros Hnd; [reflexivity|].
  inversion Hnd as [|? ? Hnot Hnd']; subst.
  rewrite map_app, (distinct_block _ _ (key a)).
  - now rewrite IH.
  - intros Hnil. apply map_eq_nil in Hnil. now apply joined_with_nonempty in Hnil.
  - intros y Hy. apply in_map_iff in Hy. destruct Hy as (r & <- & Hr).
    now rewrite (joined_with_left _ _ Hr).
  - intros Hin. apply Hnot. now apply join_keys.
Qed.

Lemma group_of_key l a :
  NoDup (map key l) -> In a l ->
  filter (fun r => key (fst r) =? key a) (flat_map joined l) = joined a.
Proof.
  induction l as [|b l IH]; simpl; intros Hnd Hin; [contradiction|].
  inversion Hnd as [|? ? Hnot Hnd']; subst.
  rewrite filter_app. destruct Hin as [->|Hin].
  - rewrite filter_keep_all.
    + rewrite filter_drop_all; [apply app_nil_r|].
      intros r Hr. apply Z.eqb_neq. intros Heq. apply Hnot. rewrite <- Heq.
      apply join_keys. apply in_map_iff. now exists r.
    + intros r Hr. rewrite (joined_with_left _ _ Hr). apply Z.eqb_refl.
  - rewrite filter_drop_all.
    + simpl. now apply IH.
    + intros r Hr. rewrite (joined_with_left _ _ Hr). apply Z.eqb_neq.
      intros Heq. apply Hnot. rewrite Heq. now apply in_map.
Qed.

Lemma group_by_join l :
  NoDup (map key l) ->
  group_by (fun r => key (fst r)) (left_join on l right_rows) = map joined l.
Proof.
  intros Hnd. unfold group_by. rewrite left_join_blocks, distinct_join_keys by assumption.
  rewrite map_map. apply map_ext_in. intros a Ha. now apply group_of_key.
Qed.

End Grouping.

(** ** Zone status *)

Section ZoneStatusRows.

Lemma zone_join_condition z p :
  is_true (sql_and (sql_eqZ (Some (zones.id z)) (products.zoneId p)) (active_condition p))
  = activeIn z p.
Proof.
  unfold activeIn, active_condition.
  destruct (products.zoneId p) as [k|], (products.isActive p) as [[|]|]; simpl;
    try reflexivity; rewrite Z.eqb_sym; now destruct (k =? zones.id z).
Qed.

(** The row of [zoneStatus] for a zone. *)
Lemma zoneStatusRow_joined (on : zones.row -> products.row -> bool) rows z :
  zoneStatusRow (joined_with on rows z)
  = [mkZoneStatus z (count_star (filter (on z) rows)) (js_or0 (zones.capacity z))].
Proof.
  pose proof (joined_with_left _ _ on rows z) as Hleft.
  pose proof (joined_with_count _ _ on rows products.id z) as Hcount.
  pose proof (joined_with_nonempty _ _ on rows z) as Hne.
  destruct (joined_with on rows z) as [|[z' o] l]; [congruence|].
  assert (z' = z) as -> by (apply (Hleft (z', o)); now left).
  cbv beta iota delta [zoneStatusRow coalesce]. now rewrite Hcount.
Qed.

Lemma zoneStatus_unordered db :
  NoDup (map zones.id (zones_tbl db)) ->
  flat_map zoneStatusRow
    (group_by (fun r => zones.id (fst r))
       (left_join (fun z p =>
            is_true (sql_and (sql_eqZ (Some (zones.id z)) (products.zoneId p))
                             (active_condition p)))
          (zones_tbl db) (products_tbl db)))
  = map (fun z => mkZoneStatus z
                    (count_star (filter (activeIn z) (products_tbl db)))
                    (js_or0 (zones.capacity z)))
      (zones_tbl db).
Proof.
  intros Hnd. rewrite group_by_join by assumption.
  induction (zones_tbl db) as [|z l IH]; simpl; [reflexivity|].
  rewrite zoneStatusRow_joined. simpl.
  rewrite (filter_ext _ _ (zone_join_condition z)). f_equal.
  apply IH. now inversion Hnd.
Qed.

End ZoneStatusRows.

(** C9. Zone ids being unique (the primary key), [zoneStatus] holds
    exactly one row per zone, and the [itemCount] of a row is the number
    of active products whose [zoneId] is that zone; a zone that no active
    product refers to is present, with [itemCount] 0. *)
Theorem zoneStatus_one_row_per_zone :
  forall d db,
    NoDup (map zones.id (zones_tbl db)) ->
    Permutation (map zone (zoneStatus (getDashboardMetrics d db))) (zones_tbl db)
    /\ (forall r, In r (zoneStatus (getDashboardMetrics d db)) ->
          itemCount r = count_star (filter (activeIn (zone r)) (products_tbl db)))
    /\ (forall z, In z (zones_tbl db) ->
          filter (activeIn z) (products_tbl db) = [] ->
          In (mkZoneStatus z 0 (js_or0 (zones.capacity z)))
             (zoneStatus (getDashboardMetrics d db))).
Proof.
  intros d db Hnd.
  assert (Hrows : Permutation (zoneStatus (getDashboardMetrics d db))
            (map (fun z => mkZoneStatus z
                    (count_star (filter (activeIn z) (products_tbl db)))
                    (js_or0 (zones.capacity z))) (zones_tbl db))).
  { unfold getDashboardMetrics; simpl zoneStatus.
    rewrite <- (zoneStatus_unordered db Hnd). apply order_by_perm. }
  split; [|split].
  - eapply perm_trans; [apply Permutation_map, Hrows|].
    rewrite map_map; simpl. rewrite map_id. apply Permutation_refl.
  - intros r Hr. apply (Permutation_in _ Hrows) in Hr.
    apply in_map_iff in Hr. destruct Hr as (z & <- & _). reflexivity.
  - intros z Hz Hnone. apply (Permutation_in _ (Permutation_sym Hrows)).
    apply in_map_iff. exists z. split; [|assumption]. now rewrite Hnone.
Qed.

Lemma zoneStatus_one_row_per_zone_witness :
  Permutation (map zone (zoneStatus (getDashboardMetrics Postgres shop))) (zones_tbl shop)
  /\ (forall r, In r (zoneStatus (getDashboardMetrics Postgres shop)) ->
        itemCount r = count_star (filter (activeIn (zone r)) (products_tbl shop)))
  /\ (forall z, In z (zones_tbl shop) ->
        filter (activeIn z) (products_tbl shop) = [] ->
        In (mkZoneStatus z 0 (js_or0 (zones.capacity z)))
           (zoneStatus (getDashboardMetrics Postgres shop))).
Proof.
  apply (zoneStatus_one_row_per_zone Postgres shop).
  repeat constructor; simpl; intuition discriminate.
Defined.

(** ** Pattern matching of the search text *)

Section Like.

Variable d : Dialect.

Lemma like_percent p t :
  like d (String "%" p) t
  = like d p t
    || match t with
       | EmptyString => false
       | String _ t' => like d (String "%" p) t'
       end.
Proof. destruct d, t; reflexivity. Qed.

Lemma like_plain_char c p t :
  plain_char d c = true ->
  like d (String c p) t
  = match t with
    | EmptyString => false
    | String e t' => eqb_ci c e && like d p t'
    end.
Proof.
  unfold plain_char. intros H.
  apply andb_true_iff in H. destruct H as [H Hesc].
  apply andb_true_iff in H. destruct H as [Hpct Hund].
  apply negb_true_iff in Hesc, Hpct, Hund.
  simpl. rewrite Hesc, Hpct, Hund. now destruct t.
Qed.

Lemma like_percent_only t : like d "%" t = true.
Proof.
  induction t as [|c t IH]; rewrite like_percent.
  - reflexivity.
  - rewrite IH. apply orb_true_r.
Qed.

Lemma like_prefix s :
  plain d s = true -> forall t, like d (s ++ "%") t = prefix_ci s t.
Proof.
  induction s as [|c s IH]; intros Hs t; cbn [append plain prefix_ci] in *.
  - apply like_percent_only.
  - apply andb_true_iff in Hs. destruct Hs as [Hc Hs].
    rewrite (like_plain_char _ _ _ Hc). destruct t as [|e t]; [reflexivity|].
    now rewrite IH.
Qed.

Lemma like_contains s t :
  plain d s = true -> like d ("%" ++ s ++ "%") t = contains_ci s t.
Proof.
  intros Hs. induction t as [|c t IH].
  - change ("%" ++ s ++ "%")%string with (String "%" (s ++ "%")).
    rewrite like_percent, like_prefix by assumption. reflexivity.
  - change ("%" ++ s ++ "%")%string with (String "%" (s ++ "%")) in *.
    rewrite like_percent, like_prefix by assumption.
    rewrite IH. reflexivity.
Qed.

End Like.

(** ** Product listing *)

Section Listing.

Lemma is_true_and a b : is_true (sql_and a b) = is_true a && is_true b.
Proof. now destruct a as [[|]|], b as [[|]|]. Qed.

Lemma where_all_app cs1 cs2 p :
  where_all (cs1 ++ cs2) p = where_all cs1 p && where_all cs2 p.
Proof.
  unfold where_all, sql_and_all. induction cs1 as [|c cs1 IH]; simpl.
  - reflexivity.
  - now rewrite !is_true_and, IH, andb_assoc.
Qed.

Lemma where_all_one c p : where_all [c] p = is_true (c p).
Proof. unfold where_all; simpl. rewrite is_true_and. apply andb_true_r. Qed.

Lemma zone_matches_at_most_one k zs :
  NoDup (map zones.id zs) ->
  joined_with (fun (p : products.row) z => is_true (sql_eqZ (products.zoneId p) (Some (zones.id z))))
    zs k
  = [(k, hd_error (filter (fun z => is_true (sql_eqZ (products.zoneId k) (Some (zones.id z)))) zs))].
Proof.
  intros Hnd. unfold joined_with.
  destruct (filter _ zs) as [|z rest] eqn:Hf; [reflexivity|].
  enough (rest = []) as -> by reflexivity.
  induction zs as [|y zs IH]; simpl in Hf; [discriminate|].
  inversion Hnd as [|? ? Hnot Hnd']; subst.
  destruct (is_true (sql_eqZ (products.zoneId k) (Some (zones.id y)))) eqn:Hy.
  - injection Hf as -> <-.
    apply filter_drop_all. intros x Hx.
    destruct (products.zoneId k) as [j|]; [|reflexivity]. simpl in *.
    destruct (Z.eqb_spec j (zones.id z)); [|discriminate]. subst j.
    destruct (Z.eqb_spec (zones.id z) (zones.id x)) as [Heq|]; [|reflexivity].
    exfalso. apply Hnot. rewrite Heq. now apply in_map.
  - now apply IH.
Qed.

Lemma left_join_zones db :
  NoDup (map zones.id (zones_tbl db)) ->
  left_join (fun p z => is_true (sql_eqZ (products.zoneId p) (Some (zones.id z))))
    (products_tbl db) (zones_tbl db)
  = map (fun p => (p, zoneOf db p)) (products_tbl db).
Proof.
  intros Hnd. unfold left_join.
  induction (products_tbl db) as [|p ps IH]; simpl; [reflexivity|].
  now rewrite zone_matches_at_most_one, IH.
Qed.

Lemma filter_paired {A B} (f : A -> bool) (g : A -> B) l :
  filter (fun r => f (fst r)) (map (fun a => (a, g a)) l)
  = map (fun a => (a, g a)) (filter f l).
Proof.
  induction l as [|a l IH]; simpl; [reflexivity|].
  destruct (f a); simpl; now rewrite IH.
Qed.

Lemma getProducts_rows d filters db :
  NoDup (map zones.id (zones_tbl db)) ->
  Permutation (getProducts d filters db)
    (map (fun p => (p, zoneOf db p))
       (filter (where_all (conditions d filters)) (products_tbl db))).
Proof.
  intros Hnd. unfold getProducts.
  rewrite left_join_zones by assumption.
  rewrite filter_paired. apply order_by_perm.
Qed.

End Listing.

(** C8. The search is not a substring match: the text is spliced into
    a [LIKE] pattern without escaping, where [_] stands for any
    character.  On the example store the search "_" returns the product
    named "abc" on both back ends, although "_" occurs in none of its
    name, product id and category, so that the product does not match the
    filter as the specification reads it. *)
Lemma getProducts_wildcard_search :
  map fst (getProducts Postgres underscore_search shop) = [widget]
  /\ map fst (getProducts SQLite underscore_search shop) = [widget]
  /\ spec_matches underscore_search widget = false
  /\ filter (spec_matches underscore_search) (products_tbl shop) = [].
Proof. repeat split. Qed.

(** ** Runs on the example store *)

Example js_number_rounds_to_even :
  js_number (9007199254740992 + 3) = 9007199254740996
  /\ js_number (9007199254740992 + 1) = 9007199254740992
  /\ js_number (- (9007199254740992 + 3)) = - 9007199254740996
  /\ js_number 2147483647 = 2147483647.
Proof. repeat split. Qed.

Example like_is_case_insensitive : like SQLite "%sku%" "SKU-1" = true.
Proof. reflexivity. Qed.

Example like_underscore_is_a_wildcard :
  like SQLite "%a_c%" "xabcx" = true /\ contains_ci "a_c" "xabcx" = false.
Proof. split; reflexivity. Qed.

Example like_escape_on_postgres :
  like Postgres "%a\_c%" "xabcx" = false /\ like Postgres "%a\_c%" "xa_cx" = true.
Proof. split; reflexivity. Qed.

Example getProducts_tools_search :
  getProducts Postgres tools_search shop = [(widget, Some aisle)].
Proof. reflexivity. Qed.

Example getProducts_skips_inactive :
  getProducts SQLite (mkFilters None None None None) shop = [(widget, Some aisle)].
Proof. reflexivity. Qed.

Example dashboard_of_shop :
  getDashboardMetrics Postgres shop
  = mkMetrics 1 1 0 1 [mkZoneStatus aisle 1 100; mkZoneStatus dock 0 0].
Proof. reflexivity. Qed.

Example dashboard_of_shop_sqlite :
  totalValue (getDashboardMetrics SQLite shop) = 0.
Proof. reflexivity. Qed.

Example deleteProduct_widget :
  products_tbl (deleteProduct 1 shop)
  = [products.mk 1 "SKU-1" "abc" None "tools" (Some 7) (Some 3) (Some 10) (Some 25)
       (Some false) 1000 1000; retired].
Proof. reflexivity. Qed.

Example out_of_five_from_three :
  updateStock 1 5 OUT (Some "sale") (Some "u1") 2000 shop
  = (shop, Throw "Insufficient stock").
Proof. reflexivity. Qed.

(** * Further properties of the storage layer *)

(** ** The ledger: failure, frame and non-negative stock *)

Section LedgerFrame.

Lemma committed_products db id q ty r u now p :
  products_tbl (committed db id q ty r u now p)
  = map (fun row => if products.id row =? id
                    then set_stock (computeNewStock (js_or0 (products.currentStock p)) q ty)
                           now row
                    else row) (products_tbl db).
Proof. reflexivity. Qed.

Lemma committed_keeps_nonneg db id q ty r u now p :
  0 <= computeNewStock (js_or0 (products.currentStock p)) q ty ->
  stock_nonneg db -> stock_nonneg (committed db id q ty r u now p).
Proof.
  unfold stock_nonneg. intros Hpos Hdb. rewrite committed_products.
  apply Forall_map. apply (Forall_impl _ (P := fun p => 0 <= js_or0 (products.currentStock p)));
    [|exact Hdb].
  intros row Hrow. now destruct (products.id row =? id).
Qed.

Lemma applyCall_keeps_nonneg c db db' :
  applyCall c db = (db', Ok tt) -> stock_nonneg db -> stock_nonneg db'.
Proof.
  unfold applyCall. intros Hcall Hdb.
  destruct (updateStock_ok_inv _ _ _ _ _ _ _ _ Hcall) as (p & _ & Hpos & ->).
  now apply committed_keeps_nonneg.
Qed.

End LedgerFrame.

(** X1. [updateStock] throws "Product not found" exactly when no
    product has the id, and "Insufficient stock" exactly when the product
    exists and the new stock would be negative; with either error the
    store is left as it was. *)
Theorem updateStock_throw_changes_nothing :
  forall id quantity type reason userId now db,
    (snd (updateStock id quantity type reason userId now db) = Throw "Product not found"
     <-> findProduct id db = None)
    /\ (snd (updateStock id quantity type reason userId now db) = Throw "Insufficient stock"
        <-> exists p, findProduct id db = Some p
              /\ computeNewStock (js_or0 (products.currentStock p)) quantity type < 0)
    /\ (snd (updateStock id quantity type reason userId now db) = Throw "Product not found"
        \/ snd (updateStock id quantity type reason userId now db) = Throw "Insufficient stock"
        -> fst (updateStock id quantity type reason userId now db) = db).
Proof.
  intros id q ty r u now db.
  destruct (findProduct id db) as [p|] eqn:Hp.
  - rewrite (updateStock_found _ _ _ _ _ _ _ _ Hp).
    destruct (Z.ltb_spec (computeNewStock (js_or0 (products.currentStock p)) q ty) 0)
      as [Hneg|Hpos]; simpl.
    + split; [split; discriminate|]. split; [|reflexivity].
      split; [|reflexivity]. intros _. now exists p.
    + split; [split; discriminate|]. split.
      * split; [discriminate|]. intros (p' & Hp' & Hneg).
        injection Hp' as <-. lia.
      * intros [H|H]; discriminate.
  - rewrite (updateStock_missing _ _ _ _ _ _ _ Hp); simpl.
    split; [split; reflexivity|]. split; [|reflexivity].
    split; [discriminate|]. intros (p & Hp' & _). discriminate.
Qed.

Lemma updateStock_throw_changes_nothing_witness :
  fst (updateStock 1 5 OUT None None 2000 shop) = shop
  /\ fst (updateStock 99 5 OUT None None 2000 shop) = shop.
Proof.
  split.
  - apply (proj2 (proj2 (updateStock_throw_changes_nothing 1 5 OUT None None 2000 shop))).
    right. reflexivity.
  - apply (proj2 (proj2 (updateStock_throw_changes_nothing 99 5 OUT None None 2000 shop))).
    left. reflexivity.
Defined.

(** X2. Successful calls of [updateStock] never make a stock negative:
    when no product of the store has a negative stock before a run of
    successful calls, none has one after it. *)
Theorem successful_calls_keep_stock_nonneg :
  forall calls db db',
    applyCalls calls db = Some db' -> stock_nonneg db -> stock_nonneg db'.
Proof.
  induction calls as [|c calls IH]; simpl; intros db db' Hrun Hdb.
  - now injection Hrun as <-.
  - destruct (applyCall c db) as [db1 [[]|e]] eqn:Hcall; [|discriminate].
    apply (IH db1); [assumption|].
    now apply (applyCall_keeps_nonneg c db).
Qed.

Lemma successful_calls_keep_stock_nonneg_witness :
  stock_nonneg (committed (committed shop 1 4 IN None None 2000 widget)
                          1 6 OUT None None 3000 (set_stock 7 2000 widget)).
Proof.
  apply (successful_calls_keep_stock_nonneg
           [mkCall 1 4 IN None None 2000; mkCall 1 6 OUT None None 3000] shop).
  - reflexivity.
  - repeat constructor; simpl; lia.
Defined.

(** X3. A successful [updateStock] writes two columns of the rows with
    the given id, [currentStock] and [updatedAt], and nothing else of the
    product and zone tables: rows with another id are untouched, no row
    is added, removed or moved. *)
Theorem updateStock_touches_only_stock_columns :
  forall id quantity type reason userId now db db',
    updateStock id quantity type reason userId now db = (db', Ok tt) ->
    zones_tbl db' = zones_tbl db
    /\ forall i,
         let before := nth_error (products_tbl db) i in
         let after := nth_error (products_tbl db') i in
         option_map products.id after = option_map products.id before
         /\ option_map products.productId after = option_map products.productId before
         /\ option_map products.name after = option_map products.name before
         /\ option_map products.description after = option_map products.description before
         /\ option_map products.category after = option_map products.category before
         /\ option_map products.zoneId after = option_map products.zoneId before
         /\ option_map products.minStock after = option_map products.minStock before
         /\ option_map products.unitPrice after = option_map products.unitPrice before
         /\ option_map products.isActive after = option_map products.isActive before
         /\ option_map products.createdAt after = option_map products.createdAt before
         /\ option_map (fun p => if products.id p =? id then None else Some p) after
            = option_map (fun p => if products.id p =? id then None else Some p) before.
Proof.
  intros id q ty r u now db db' H.
  destruct (updateStock_ok_inv _ _ _ _ _ _ _ _ H) as (p & _ & _ & ->).
  split; [reflexivity|].
  intros i before after. subst before after.
  rewrite committed_products, nth_error_map.
  destruct (nth_error (products_tbl db) i) as [row|]; simpl; [|repeat split].
  destruct (products.id row =? id) eqn:Hrow; simpl; rewrite ?Hrow; repeat split.
Qed.

Lemma updateStock_touches_only_stock_columns_witness :
  zones_tbl (committed shop 1 4 IN None None 2000 widget) = zones_tbl shop
  /\ forall i,
       let before := nth_error (products_tbl shop) i in
       let after := nth_error (products_tbl (committed shop 1 4 IN None None 2000 widget)) i in
       option_map products.id after = option_map products.id before
       /\ option_map products.productId after = option_map products.productId before
       /\ option_map products.name after = option_map products.name before
       /\ option_map products.description after = option_map products.description before
       /\ option_map products.category after = option_map products.category before
       /\ option_map products.zoneId after = option_map products.zoneId before
       /\ option_map products.minStock after = option_map products.minStock before
       /\ option_map products.unitPrice after = option_map products.unitPrice before
       /\ option_map products.isActive after = option_map products.isActive before
       /\ option_map products.createdAt after = option_map products.createdAt before
       /\ option_map (fun p => if products.id p =? 1 then None else Some p) after
          = option_map (fun p => if products.id p =? 1 then None else Some p) before.
Proof.
  apply (updateStock_touches_only_stock_columns 1 4 IN None None 2000 shop).
  reflexivity.
Defined.

(** ** Soft delete against the ledger and the lookups *)

Section SoftDelete.

Lemma findProduct_deleteProduct k id db :
  findProduct id (deleteProduct k db)
  = option_map (fun p => if products.id p =? k then set_inactive p else p)
      (findProduct id db).
Proof.
  unfold findProduct, deleteProduct; simpl.
  rewrite filter_updated by reflexivity.
  now destruct (filter _ (products_tbl db)).
Qed.

Lemma set_stock_set_inactive v now p :
  set_stock v now (set_inactive p) = set_inactive (set_stock v now p).
Proof. reflexivity. Qed.

Lemma deleteProduct_committed k db id q ty r u now p :
  committed (deleteProduct k db) id q ty r u now
    (if products.id p =? k then set_inactive p else p)
  = deleteProduct k (committed db id q ty r u now p).
Proof.
  assert (Hs : js_or0 (products.currentStock (if products.id p =? k then set_inactive p else p))
               = js_or0 (products.currentStock p))
    by now destruct (products.id p =? k).
  unfold committed, deleteProduct; simpl. rewrite Hs. f_equal.
  rewrite !map_map. apply map_ext. intros row.
  destruct (products.id row =? k) eqn:Hk, (products.id row =? id) eqn:Hi;
    simpl; rewrite ?Hk, ?Hi; reflexivity.
Qed.

Lemma in_order_by {A} (key : A -> string) l x : In x (order_by key l) -> In x l.
Proof. apply Permutation_in, order_by_perm. Qed.

Lemma listed_is_active d filters db r :
  In r (getProducts d filters db) ->
  In (fst r) (products_tbl db) /\ products.isActive (fst r) = Some true.
Proof.
  unfold getProducts. intros H. apply in_order_by in H.
  apply filter_In in H. destruct H as [Hjoin Hwhere].
  split.
  - unfold left_join in Hjoin. apply in_flat_map in Hjoin.
    destruct Hjoin as (p & Hp & Hr).
    now rewrite (joined_with_left _ _ _ _ _ _ Hr).
  - unfold conditions in Hwhere. rewrite where_all_app, where_all_one in Hwhere.
    apply andb_true_iff in Hwhere. destruct Hwhere as [Hact _].
    rewrite active_condition_true in Hact.
    now destruct (products.isActive (fst r)) as [[|]|].
Qed.

Lemma hd_joined_with {A B} (on : A -> B -> bool) rows a :
  hd_error (joined_with on rows a) = Some (a, hd_error (filter (on a) rows)).
Proof. unfold joined_with. now destruct (filter (on a) rows). Qed.

Lemma join_mapped (f : products.row -> products.row) db rows :
  (forall p, products.zoneId (f p) = products.zoneId p) ->
  left_join (fun p z => is_true (sql_eqZ (products.zoneId p) (Some (zones.id z))))
    (map f rows) (zones_tbl db)
  = map (fun r => (f (fst r), snd r))
      (left_join (fun p z => is_true (sql_eqZ (products.zoneId p) (Some (zones.id z))))
         rows (zones_tbl db)).
Proof.
  intros Hz. unfold left_join.
  induction rows as [|p rows IH]; simpl; [reflexivity|].
  rewrite map_app, IH. f_equal.
  unfold joined_with. rewrite Hz.
  destruct (filter _ (zones_tbl db)); simpl; [reflexivity|].
  f_equal. rewrite map_map. reflexivity.
Qed.

End SoftDelete.

(** X4. Soft delete and stock update commute: updating the stock of a
    product after [deleteProduct] gives the same outcome and the same
    store as deleting after the update.  In particular [updateStock]
    works on an inactive product as on an active one. *)
Theorem deleteProduct_commutes_with_updateStock :
  forall k id quantity type reason userId now db,
    updateStock id quantity type reason userId now (deleteProduct k db)
    = (deleteProduct k (fst (updateStock id quantity type reason userId now db)),
       snd (updateStock id quantity type reason userId now db)).
Proof.
  intros k id q ty r u now db.
  destruct (findProduct id db) as [p|] eqn:Hp.
  - assert (Hp' : findProduct id (deleteProduct k db)
                  = Some (if products.id p =? k then set_inactive p else p))
      by now rewrite findProduct_deleteProduct, Hp.
    rewrite (updateStock_found _ _ _ _ _ _ _ _ Hp),
            (updateStock_found _ _ _ _ _ _ _ _ Hp').
    assert (Hs : js_or0 (products.currentStock (if products.id p =? k then set_inactive p else p))
                 = js_or0 (products.currentStock p))
      by now destruct (products.id p =? k).
    rewrite Hs.
    destruct (computeNewStock (js_or0 (products.currentStock p)) q ty <? 0); simpl.
    + reflexivity.
    + now rewrite deleteProduct_committed.
  - assert (Hp' : findProduct id (deleteProduct k db) = None)
      by now rewrite findProduct_deleteProduct, Hp.
    now rewrite (updateStock_missing _ _ _ _ _ _ _ Hp),
                (updateStock_missing _ _ _ _ _ _ _ Hp').
Qed.

(** X5. After [deleteProduct] the product is in no listing, whatever the
    filters; [getProduct] still returns its row, with [isActive] false
    and the same zone, so that [GET /api/products/:id] answers 404 after
    the delete exactly when it did before; and deleting twice is
    deleting once. *)
Theorem deleted_product_is_hidden_not_gone :
  forall id db,
    (forall d filters,
       Forall (fun r => products.id (fst r) <> id)
         (getProducts d filters (deleteProduct id db)))
    /\ getProduct id (deleteProduct id db)
       = option_map (fun r => (set_inactive (fst r), snd r)) (getProduct id db)
    /\ (forall r, products_get_route id (deleteProduct id db) = inl r
                  <-> products_get_route id db = inl r)
    /\ deleteProduct id (deleteProduct id db) = deleteProduct id db.
Proof.
  intros id db.
  assert (Hget : getProduct id (deleteProduct id db)
                 = option_map (fun r => (set_inactive (fst r), snd r)) (getProduct id db)).
  { unfold getProduct, products_with_zones, deleteProduct; simpl.
    rewrite join_mapped by (intros p; now destruct (products.id p =? id)).
    set (rows := left_join _ (products_tbl db) (zones_tbl db)).
    induction rows as [|r rows IH]; simpl; [reflexivity|].
    destruct (products.id (fst r) =? id) eqn:Hr; simpl; rewrite Hr; simpl.
    - reflexivity.
    - exact IH. }
  split; [|split; [exact Hget|split]].
  - intros d filters. apply Forall_forall. intros r Hr.
    destruct (listed_is_active _ _ _ _ Hr) as [Hin Hact].
    unfold deleteProduct in Hin; simpl in Hin. apply in_map_iff in Hin.
    destruct Hin as (p & Hp & _). intros Hid.
    destruct (products.id p =? id) eqn:Hpid.
    + rewrite <- Hp in Hact. discriminate.
    + subst p. apply Z.eqb_neq in Hpid. contradiction.
  - intros r. unfold products_get_route. rewrite Hget.
    destruct (getProduct id db); simpl; split; congruence.
  - unfold deleteProduct; simpl. f_equal. rewrite map_map. apply map_ext.
    intros p. destruct (products.id p =? id) eqn:Hp; simpl; rewrite ?Hp; reflexivity.
Qed.

(** ** Creating a product *)

Section Creation.

Lemma existsb_false_filter {A} (f : A -> bool) l :
  existsb f l = false -> filter f l = [].
Proof.
  intros H. apply filter_drop_all. intros x Hx.
  destruct (f x) eqn:Hfx; [|reflexivity].
  assert (existsb f l = true) by (apply existsb_exists; now exists x).
  congruence.
Qed.

Lemma createProduct_ok_inv id data now db db' row :
  createProduct id data now db = (db', Ok row) ->
  existsb (fun p => products.id p =? id) (products_tbl db) = false
  /\ existsb (fun p => String.eqb (products.productId p) (insertProduct.productId data))
       (products_tbl db) = false
  /\ zone_exists (insertProduct.zoneId data) db = true
  /\ row = products.mk id (insertProduct.productId data) (insertProduct.name data)
             (insertProduct.description data) (insertProduct.category data)
             (insertProduct.zoneId data) (Some (insertProduct.currentStock data))
             (Some (insertProduct.minStock data)) (Some (insertProduct.unitPrice data))
             (or_else (insertProduct.isActive data) (Some true)) now now
  /\ db' = mkDb (zones_tbl db) (products_tbl db ++ [row]) (movements_tbl db)
             (movements_seq db).
Proof.
  unfold createProduct.
  destruct (existsb (fun p => products.id p =? id) (products_tbl db)); [discriminate|].
  destruct (existsb _ (products_tbl db)); [discriminate|].
  destruct (zone_exists (insertProduct.zoneId data) db); [|discriminate].
  simpl. intros H. injection H as <- <-. repeat split.
Qed.

Lemma findProduct_appended id db row zs ms seq :
  existsb (fun p => products.id p =? id) (products_tbl db) = false ->
  products.id row = id ->
  findProduct id (mkDb zs (products_tbl db ++ [row]) ms seq) = Some row.
Proof.
  intros Hfresh Hid. unfold findProduct; simpl.
  rewrite filter_app, (existsb_false_filter _ _ Hfresh); simpl.
  now rewrite Hid, Z.eqb_refl.
Qed.

(** No movement refers to a key that no product has. *)
Lemma fresh_key_has_no_movement id db :
  references_resolve db ->
  existsb (fun p => products.id p =? id) (products_tbl db) = false ->
  movementsOf id db = [].
Proof.
  intros [_ Hrefs] Hfresh. unfold movementsOf. apply filter_drop_all.
  intros m Hm. apply Z.eqb_neq. intros Heq.
  specialize (Hrefs m Hm). rewrite Heq in Hrefs. congruence.
Qed.

Lemma balanced_run k base calls :
  forall db db', applyCalls calls db = Some db' -> run_in_range calls db ->
                 balanced k base db -> balanced k base db'.
Proof.
  induction calls as [|c calls IH]; intros db db' Hrun Hrange Hbal.
  - now injection Hrun as <-.
  - cbn [applyCalls] in Hrun. cbn [run_in_range] in Hrange.
    destruct Hrange as [Hc Hrest]. revert Hrun Hrest.
    destruct (applyCall c db) as [db1 [[]|e]] eqn:Hcall; intros Hrun Hrest;
      [|discriminate].
    cbn [fst] in Hrest.
    apply (IH db1); [assumption|assumption|].
    now apply (balanced_step k base db c).
Qed.

(** What a request answered with 201 has written. *)
Lemma products_create_route_sent id data user now db db' p :
  products_create_route id (Some data) user now db = (db', Sent 201 p) ->
  exists db1,
    createProduct id data now db = (db1, Ok p)
    /\ ((insertProduct.currentStock data <= 0 /\ db' = db1)
        \/ (0 < insertProduct.currentStock data
            /\ db' = mkDb (zones_tbl db1) (products_tbl db1)
                     (movements_tbl db1 ++
                        [movements.mk (movements_seq db1 + 1) id IN
                           (insertProduct.currentStock data) 0
                           (insertProduct.currentStock data)
                           (Some "Initial stock") (Some user) now])
                     (movements_seq db1 + 1))).
Proof.
  unfold products_create_route.
  destruct (createProduct id data now db) as [db1 [row|e]] eqn:Hc; [|discriminate].
  destruct (createProduct_ok_inv _ _ _ _ _ _ Hc) as (Hfresh & _ & _ & Hrow & Hdb1).
  assert (Hid : products.id row = id) by now rewrite Hrow.
  set (cs := insertProduct.currentStock data).
  assert (Hcond : truthyZ (Some cs) && (cs >? 0) = (0 <? cs)).
  { simpl. unfold Z.gtb, Z.ltb. rewrite (Z.compare_antisym cs 0).
    destruct (Z.eqb_spec cs 0) as [->|]; [reflexivity|].
    simpl. now destruct (cs ?= 0). }
  rewrite Hcond. destruct (Z.ltb_spec 0 cs) as [Hpos|Hle].
  - unfold createMovement. simpl insertMovement.productId. rewrite Hid.
    assert (Hex : existsb (fun q => products.id q =? id) (products_tbl db1) = true).
    { rewrite Hdb1; simpl. rewrite existsb_app; simpl.
      rewrite Hid, Z.eqb_refl. now rewrite orb_true_r. }
    rewrite Hex; simpl. intros H. injection H as <- <-.
    exists db1. split; [reflexivity|]. right. split; [assumption|reflexivity].
  - intros H. injection H as <- <-.
    exists db1. split; [reflexivity|]. left. now split.
Qed.

Lemma create_route_history id data user now db db' p :
  products_create_route id (Some data) user now db = (db', Sent 201 p) ->
  references_resolve db ->
  findProduct id db' = Some p
  /\ products.currentStock p = Some (insertProduct.currentStock data)
  /\ movementsOf id db'
     = (if 0 <? insertProduct.currentStock data
        then [movements.mk (movements_seq db + 1) id IN
                (insertProduct.currentStock data) 0 (insertProduct.currentStock data)
                (Some "Initial stock") (Some user) now]
        else []).
Proof.
  intros Hroute Hrefs.
  destruct (products_create_route_sent _ _ _ _ _ _ _ Hroute) as (db1 & Hc & Hcase).
  destruct (createProduct_ok_inv _ _ _ _ _ _ Hc) as (Hfresh & _ & _ & Hrow & Hdb1).
  assert (Hid : products.id p = id) by now rewrite Hrow.
  assert (Hstock : products.currentStock p = Some (insertProduct.currentStock data))
    by now rewrite Hrow.
  pose proof (fresh_key_has_no_movement id db Hrefs Hfresh) as Hnone.
  assert (Hfind1 : findProduct id db1 = Some p)
    by (rewrite Hdb1; now apply findProduct_appended).
  assert (Hmov1 : movementsOf id db1 = []) by (rewrite Hdb1; exact Hnone).
  destruct Hcase as [[Hle ->]|[Hpos ->]].
  - destruct (Z.ltb_spec 0 (insertProduct.currentStock data)); [lia|].
    repeat split; assumption.
  - destruct (Z.ltb_spec 0 (insertProduct.currentStock data)); [|lia].
    repeat split; try assumption.
    unfold movementsOf in *; simpl. rewrite filter_app, Hmov1; simpl.
    rewrite Z.eqb_refl. now rewrite Hdb1.
Qed.

Lemma balanced_from_history id db p cs seq user now :
  findProduct id db = Some p ->
  products.currentStock p = Some cs ->
  movementsOf id db
  = (if 0 <? cs
     then [movements.mk seq id IN cs 0 cs (Some "Initial stock") (Some user) now]
     else []) ->
  0 <= cs ->
  balanced id 0 db.
Proof.
  intros Hfind Hstock Hmov Hcs. exists cs. unfold readStock.
  rewrite Hfind, Hmov; simpl. rewrite Hstock.
  destruct (Z.ltb_spec 0 cs); unfold latestNewStock; simpl; unfold signed; simpl;
    repeat split; lia.
Qed.

End Creation.

(** X6. A product created through [POST /api/products] starts with a
    ledger that accounts for its stock.  When the request is answered
    with 201, the store resolves its references and the starting stock is
    not negative (the schema's [min(0)]), the new row is the one found
    under the assigned key, its stock is the starting stock, its history
    is the single movement "Initial stock" from 0 to that stock (no
    movement for a starting stock of 0), and the row is balanced against
    an initial stock of 0. *)
Theorem created_product_is_balanced :
  forall id data user now db db' p,
    products_create_route id (Some data) user now db = (db', Sent 201 p) ->
    references_resolve db ->
    0 <= insertProduct.currentStock data ->
    findProduct id db' = Some p
    /\ products.currentStock p = Some (insertProduct.currentStock data)
    /\ movementsOf id db'
       = (if 0 <? insertProduct.currentStock data
          then [movements.mk (movements_seq db + 1) id IN
                  (insertProduct.currentStock data) 0 (insertProduct.currentStock data)
                  (Some "Initial stock") (Some user) now]
          else [])
    /\ balanced id 0 db'.
Proof.
  intros id data user now db db' p Hroute Hrefs Hcs.
  destruct (create_route_history _ _ _ _ _ _ _ Hroute Hrefs) as (Hfind & Hstock & Hmov).
  repeat split; try assumption.
  exact (balanced_from_history _ _ _ _ _ _ _ Hfind Hstock Hmov Hcs).
Qed.

Lemma shop_references_resolve : references_resolve shop.
Proof.
  split.
  - intros p [<-|[<-|[]]]; reflexivity.
  - intros m [].
Qed.

Lemma created_product_is_balanced_witness :
  findProduct 3 shop_with_gadget = Some gadget_row
  /\ products.currentStock gadget_row = Some (insertProduct.currentStock gadget)
  /\ movementsOf 3 shop_with_gadget
     = (if 0 <? insertProduct.currentStock gadget
        then [movements.mk (movements_seq shop + 1) 3 IN
                (insertProduct.currentStock gadget) 0 (insertProduct.currentStock gadget)
                (Some "Initial stock") (Some "u1") 2000]
        else [])
  /\ balanced 3 0 shop_with_gadget.
Proof.
  apply (created_product_is_balanced 3 gadget "u1" 2000 shop shop_with_gadget gadget_row).
  - reflexivity.
  - exact shop_references_resolve.
  - simpl. lia.
Defined.

(** X7. The stock of a product created through [POST /api/products] and
    changed since by successful [updateStock] calls only (on any
    products), all numbers being in the range of the integer columns, can
    be recomputed from the audit trail: it is the IN quantities minus the
    OUT quantities of the product's movements. *)
Theorem created_product_stock_is_derivable :
  forall id data user now db db1 p calls db2,
    products_create_route id (Some data) user now db = (db1, Sent 201 p) ->
    references_resolve db ->
    0 <= insertProduct.currentStock data ->
    int4 (insertProduct.currentStock data) ->
    applyCalls calls db1 = Some db2 ->
    run_in_range calls db1 ->
    readStock id db2 = Some (net (movementsOf id db2)).
Proof.
  intros id data user now db db1 p calls db2 Hroute Hrefs Hcs _ Hrun Hrange.
  destruct (create_route_history _ _ _ _ _ _ _ Hroute Hrefs) as (Hfind & Hstock & Hmov).
  pose proof (balanced_from_history _ _ _ _ _ _ _ Hfind Hstock Hmov Hcs) as Hbal.
  destruct (balanced_run id 0 calls db1 db2 Hrun Hrange Hbal) as (s & Hread & _ & Hsum).
  rewrite Hread. f_equal. lia.
Qed.

Lemma created_product_stock_is_derivable_witness :
  readStock 3 (committed shop_with_gadget 3 2 OUT None None 3000 gadget_row)
  = Some (net (movementsOf 3 (committed shop_with_gadget 3 2 OUT None None 3000 gadget_row))).
Proof.
  apply (created_product_stock_is_derivable 3 gadget "u1" 2000 shop shop_with_gadget
           gadget_row [mkCall 3 2 OUT None None 3000]).
  - reflexivity.
  - exact shop_references_resolve.
  - simpl. lia.
  - unfold int4; simpl. lia.
  - reflexivity.
  - vm_compute. repeat split; discriminate.
Defined.

(** X8. Three refusals of [POST /api/products] that write nothing: a
    body the schema rejects is answered with 400 "Invalid product data";
    a product id already in use and a zone that does not exist make the
    insert of the product fail and are answered with 500 "Failed to
    create product".  In these three cases the store is unchanged.  (A
    failure of the later insert of the initial movement is not among
    them: the two inserts are not in one transaction.) *)
Theorem products_create_route_refusals :
  forall id user now db,
    products_create_route id None user now db
    = (db, Refused (mkResponse 400 "Invalid product data"))
    /\ forall data,
         (existsb (fun p => String.eqb (products.productId p) (insertProduct.productId data))
            (products_tbl db) = true
          \/ zone_exists (insertProduct.zoneId data) db = false) ->
         products_create_route id (Some data) user now db
         = (db, Refused (mkResponse 500 "Failed to create product")).
Proof.
  intros id user now db. split; [reflexivity|].
  intros data H. unfold products_create_route, createProduct.
  destruct (existsb (fun p => products.id p =? id) (products_tbl db)); [reflexivity|].
  destruct H as [H|H]; rewrite H; [reflexivity|].
  now destruct (existsb _ (products_tbl db)).
Qed.

Lemma products_create_route_refusals_witness :
  products_create_route 3
    (Some (insertProduct.mk "SKU-1" "Copy" None "tools" None 0 0 0 None)) "u1" 2000 shop
  = (shop, Refused (mkResponse 500 "Failed to create product"))
  /\ products_create_route 3
       (Some (insertProduct.mk "SKU-9" "Lost" None "tools" (Some 42) 0 0 0 None)) "u1" 2000 shop
     = (shop, Refused (mkResponse 500 "Failed to create product")).
Proof.
  split.
  - apply (proj2 (products_create_route_refusals 3 "u1" 2000 shop)). left. reflexivity.
  - apply (proj2 (products_create_route_refusals 3 "u1" 2000 shop)). right. reflexivity.
Defined.

(** ** Editing a product *)

Section Editing.

Lemma updateProduct_ok_inv id patch now db db' row :
  updateProduct id patch now db = (db', Ok (Some row)) ->
  exists old,
    findProduct id db = Some old
    /\ row = set_product patch now old
    /\ findProduct id db' = Some row
    /\ movements_tbl db' = movements_tbl db.
Proof.
  unfold updateProduct.
  destruct (existsb (fun p => products.id p =? id) (products_tbl db)); simpl;
    [|discriminate].
  destruct (match productPatch.productId patch with
            | Some s => existsb _ (products_tbl db)
            | None => false
            end); [discriminate|].
  destruct (zone_exists (productPatch.zoneId patch) db); simpl; [|discriminate].
  intros H. injection H as <- Hrow.
  unfold findProduct; simpl.
  rewrite filter_updated in * by reflexivity.
  destruct (filter (fun p => products.id p =? id) (products_tbl db)) as [|old rest] eqn:Hf;
    [discriminate|].
  simpl in *.
  assert (Hold : (products.id old =? id) = true).
  { assert (Hin : In old (filter (fun p => products.id p =? id) (products_tbl db)))
      by (rewrite Hf; now left).
    now apply filter_In in Hin. }
  rewrite Hold in *. injection Hrow as <-.
  exists old. repeat split.
Qed.

End Editing.

(** X9. [updateProduct] writes no movement.  When it returns a row, that
    row is the edited product as [findProduct] then reads it and the
    movement table is the same; so an edit that sets [currentStock] to a
    value other than the stock read before leaves a product that was
    balanced against its history unbalanced. *)
Theorem updateProduct_bypasses_the_ledger :
  forall id patch now db db' row,
    updateProduct id patch now db = (db', Ok (Some row)) ->
    movements_tbl db' = movements_tbl db
    /\ findProduct id db' = Some row
    /\ forall v base,
         productPatch.currentStock patch = Some v ->
         readStock id db' = Some v
         /\ (balanced id base db -> readStock id db <> Some v -> ~ balanced id base db').
Proof.
  intros id patch now db db' row H.
  destruct (updateProduct_ok_inv _ _ _ _ _ _ H) as (old & Hold & Hrow & Hfind & Hmov).
  split; [exact Hmov|]. split; [exact Hfind|].
  intros v base Hv.
  assert (Hread : readStock id db' = Some v).
  { unfold readStock. rewrite Hfind, Hrow; simpl. now rewrite Hv. }
  split; [exact Hread|].
  intros (s & Hs & _ & Hsum) Hne (s' & Hs' & _ & Hsum').
  assert (Hsame : movementsOf id db' = movementsOf id db)
    by (unfold movementsOf; now rewrite Hmov).
  rewrite Hsame in Hsum'. rewrite Hread in Hs'. injection Hs' as <-.
  apply Hne. rewrite Hs. f_equal. lia.
Qed.

Lemma updateProduct_bypasses_the_ledger_witness :
  movements_tbl (fst (updateProduct 3
                        (productPatch.mk None None None None None (Some 9) None None None)
                        4000 shop_with_gadget))
  = movements_tbl shop_with_gadget
  /\ findProduct 3 (fst (updateProduct 3
                           (productPatch.mk None None None None None (Some 9) None None None)
                           4000 shop_with_gadget))
     = Some (products.mk 3 "SKU-3" "Gadget" None "tools" (Some 8) (Some 9) (Some 2)
               (Some 150) (Some true) 2000 4000)
  /\ forall v base,
       productPatch.currentStock
         (productPatch.mk None None None None None (Some 9) None None None) = Some v ->
       readStock 3 (fst (updateProduct 3
                           (productPatch.mk None None None None None (Some 9) None None None)
                           4000 shop_with_gadget)) = Some v
       /\ (balanced 3 base shop_with_gadget ->
           readStock 3 shop_with_gadget <> Some v ->
           ~ balanced 3 base
               (fst (updateProduct 3
                       (productPatch.mk None None None None None (Some 9) None None None)
                       4000 shop_with_gadget))).
Proof.
  apply (updateProduct_bypasses_the_ledger 3
           (productPatch.mk None None None None None (Some 9) None None None)
           4000 shop_with_gadget).
  reflexivity.
Defined.

(** ** Lookups after an insert *)

(** X10. A product that [createProduct] has inserted is found again: by
    its key with [getProduct] and by its product id with
    [getProductByProductId], both returning the inserted row together
    with the zone it refers to, and [GET /api/products/:id] no longer
    answers 404. *)
Theorem createProduct_then_lookup :
  forall id data now db db' row,
    createProduct id data now db = (db', Ok row) ->
    getProduct id db' = Some (row, zoneOf db' row)
    /\ getProductByProductId (insertProduct.productId data) db'
       = Some (row, zoneOf db' row)
    /\ products_get_route id db' = inr (row, zoneOf db' row).
Proof.
  intros id data now db db' row H.
  destruct (createProduct_ok_inv _ _ _ _ _ _ H) as (Hfresh & Huniq & _ & Hrow & Hdb').
  assert (Hid : products.id row = id) by now rewrite Hrow.
  assert (Hpid : products.productId row = insertProduct.productId data)
    by now rewrite Hrow.
  assert (Hjoin : forall f : products.row -> bool,
            existsb f (products_tbl db) = false -> f row = true ->
            hd_error (filter (fun r => f (fst r)) (products_with_zones db'))
            = Some (row, zoneOf db' row)).
  { intros f Hnone Hyes. unfold products_with_zones, left_join.
    replace (products_tbl db') with (products_tbl db ++ [row]) by now rewrite Hdb'.
    rewrite flat_map_app, filter_app. simpl flat_map. rewrite app_nil_r.
    rewrite (filter_drop_all _ (flat_map _ (products_tbl db))).
    - rewrite filter_keep_all.
      + apply hd_joined_with.
      + intros r Hr. now rewrite (joined_with_left _ _ _ _ _ _ Hr).
    - intros r Hr. apply in_flat_map in Hr. destruct Hr as (p & Hp & Hr).
      rewrite (joined_with_left _ _ _ _ _ _ Hr).
      destruct (f p) eqn:Hfp; [|reflexivity].
      assert (existsb f (products_tbl db) = true) by (apply existsb_exists; now exists p).
      congruence. }
  assert (Hget : getProduct id db' = Some (row, zoneOf db' row)).
  { unfold getProduct. apply (Hjoin (fun p => products.id p =? id)); [exact Hfresh|].
    now rewrite Hid, Z.eqb_refl. }
  split; [exact Hget|]. split.
  - unfold getProductByProductId.
    apply (Hjoin (fun p => String.eqb (products.productId p) (insertProduct.productId data)));
      [exact Huniq|].
    rewrite Hpid. apply String.eqb_refl.
  - unfold products_get_route. now rewrite Hget.
Qed.

Lemma createProduct_then_lookup_witness :
  getProduct 3 (mkDb [aisle; dock] [widget; retired; gadget_row] [] 0)
  = Some (gadget_row, zoneOf (mkDb [aisle; dock] [widget; retired; gadget_row] [] 0) gadget_row)
  /\ getProductByProductId (insertProduct.productId gadget)
       (mkDb [aisle; dock] [widget; retired; gadget_row] [] 0)
     = Some (gadget_row, zoneOf (mkDb [aisle; dock] [widget; retired; gadget_row] [] 0) gadget_row)
  /\ products_get_route 3 (mkDb [aisle; dock] [widget; retired; gadget_row] [] 0)
     = inr (gadget_row, zoneOf (mkDb [aisle; dock] [widget; retired; gadget_row] [] 0) gadget_row).
Proof.
  apply (createProduct_then_lookup 3 gadget 2000 shop).
  reflexivity.
Defined.

(** ** The dashboard against the listings *)

Section DashboardAndListings.

Lemma getProducts_length d filters db :
  NoDup (map zones.id (zones_tbl db)) ->
  Z.of_nat (List.length (getProducts d filters db))
  = count_star (filter (where_all (conditions d filters)) (products_tbl db)).
Proof.
  intros Hnd. unfold count_star.
  rewrite (Permutation_length (getProducts_rows d filters db Hnd)).
  now rewrite length_map.
Qed.

Lemma status_listing_conditions d s p :
  where_all (conditions d (mkFilters None None (Some s) None)) p
  = is_true (active_condition p) && status_holds s p.
Proof.
  unfold conditions, status_holds, where_all, sql_and_all; simpl.
  apply is_true_and.
Qed.

Lemma low_condition p :
  is_true (sql_and_all
    [active_condition p;
     sql_leZ (products.currentStock p) (products.minStock p);
     sql_gtZ (products.currentStock p) (Some 0)])
  = is_true (active_condition p) && status_holds low_stock p.
Proof.
  unfold status_holds, where_all; simpl.
  destruct (active_condition p) as [[|]|],
           (sql_leZ (products.currentStock p) (products.minStock p)) as [[|]|],
           (sql_gtZ (products.currentStock p) (Some 0)) as [[|]|]; reflexivity.
Qed.

Lemma out_condition p :
  is_true (sql_and_all
    [active_condition p; sql_eqZ (products.currentStock p) (Some 0)])
  = is_true (active_condition p) && status_holds out_of_stock p.
Proof.
  unfold status_holds, where_all; simpl.
  destruct (active_condition p) as [[|]|],
           (sql_eqZ (products.currentStock p) (Some 0)) as [[|]|]; reflexivity.
Qed.

Lemma low_and_out_exclude p :
  status_holds low_stock p && status_holds out_of_stock p = false.
Proof.
  unfold status_holds, where_all; simpl.
  destruct (products.currentStock p) as [cs|], (products.minStock p) as [ms|]; simpl;
    try reflexivity.
  - unfold Z.gtb. destruct (Z.eqb_spec cs 0) as [->|]; simpl.
    + now destruct (0 <=? ms).
    + destruct (cs <=? ms), (cs ?= 0); reflexivity.
  - unfold Z.gtb. destruct (Z.eqb_spec cs 0) as [->|]; simpl; [reflexivity|].
    now destruct (cs ?= 0).
Qed.

Lemma length_filter_split {A} (f g h : A -> bool) l :
  (forall x, In x l -> f x = true -> (g x, h x) = (true, false) \/ (g x, h x) = (false, true)
                       \/ (g x, h x) = (false, false)) ->
  (forall x, In x l -> f x = false -> g x = false /\ h x = false) ->
  (List.length (filter g l) + List.length (filter h l) <= List.length (filter f l))%nat.
Proof.
  induction l as [|x l IH]; simpl; intros Ht Hf; [lia|].
  assert (IH' : (List.length (filter g l) + List.length (filter h l)
                 <= List.length (filter f l))%nat).
  { apply IH; intros y Hy; [apply Ht | apply Hf]; now right. }
  destruct (f x) eqn:Hfx.
  - destruct (Ht x (or_introl eq_refl) Hfx) as [H|[H|H]]; injection H as -> ->;
      simpl; lia.
  - destruct (Hf x (or_introl eq_refl) Hfx) as [-> ->]. exact IH'.
Qed.


End DashboardAndListings.

(** X11. The report agrees with itself: zone ids being unique, the
    counts [lowStockItems] and [outOfStockItems] of the metrics in
    [generateReportData] are the lengths of the lists [lowStockItems] and
    [outOfStockItems] of the same report, and [totalItems] is the number
    of rows the unfiltered listing returns. *)
Theorem report_counts_match_report_lists :
  forall d users_tbl filters db,
    NoDup (map zones.id (zones_tbl db)) ->
    let report := generateReportData d users_tbl filters db in
    lowStockItems (metrics report)
    = Z.of_nat (List.length (report_lowStockItems report))
    /\ outOfStockItems (metrics report)
       = Z.of_nat (List.length (report_outOfStockItems report))
    /\ totalItems (metrics report)
       = Z.of_nat (List.length (getProducts d (mkFilters None None None None) db)).
Proof.
  intros d users_tbl filters db Hnd report. subst report.
  unfold generateReportData.
  cbn [metrics report_lowStockItems report_outOfStockItems].
  unfold getDashboardMetrics. cbn [lowStockItems outOfStockItems totalItems].
  rewrite !getProducts_length by assumption.
  split; [|split]; unfold count_star; do 2 apply f_equal;
    apply filter_ext; intros p; cbv beta.
  - now rewrite low_condition, status_listing_conditions.
  - now rewrite out_condition, status_listing_conditions.
  - unfold conditions; simpl. now rewrite where_all_one.
Qed.

Lemma report_counts_match_report_lists_witness :
  let report := generateReportData Postgres [ann] (mkReportFilters None None None None None None)
                  shop in
  lowStockItems (metrics report)
  = Z.of_nat (List.length (report_lowStockItems report))
  /\ outOfStockItems (metrics report)
     = Z.of_nat (List.length (report_outOfStockItems report))
  /\ totalItems (metrics report)
     = Z.of_nat (List.length (getProducts Postgres (mkFilters None None None None) shop)).
Proof.
  apply (report_counts_match_report_lists Postgres [ann]
           (mkReportFilters None None None None None None) shop).
  repeat constructor; simpl; intuition discriminate.
Defined.

(** X12. On every store the dashboard counts are consistent: no product
    is counted both as low and as out of stock, so
    [lowStockItems + outOfStockItems <= totalItems], and no count is
    negative. *)
Theorem dashboard_counts_are_consistent :
  forall d db,
    0 <= lowStockItems (getDashboardMetrics d db)
    /\ 0 <= outOfStockItems (getDashboardMetrics d db)
    /\ lowStockItems (getDashboardMetrics d db) + outOfStockItems (getDashboardMetrics d db)
       <= totalItems (getDashboardMetrics d db).
Proof.
  intros d db. unfold getDashboardMetrics, count_star.
  cbn [lowStockItems outOfStockItems totalItems].
  split; [lia|]. split; [lia|].
  rewrite <- Nat2Z.inj_add. apply Nat2Z.inj_le.
  rewrite (filter_ext _ _ low_condition), (filter_ext _ _ out_condition).
  apply length_filter_split.
  - intros p _ Hact. rewrite Hact; simpl.
    pose proof (low_and_out_exclude p) as Hex.
    destruct (status_holds low_stock p), (status_holds out_of_stock p); simpl in *;
      try discriminate; auto.
  - intros p _ Hact. now rewrite Hact.
Qed.



(** ** The client's and the report's reading of a stock *)

Section Views.

Lemma getStockStatus_classify p cs ms :
  products.currentStock p = Some cs -> products.minStock p = Some ms ->
  0 <= cs -> 0 <= ms ->
  getStockStatus p = classifyStock cs ms.
Proof.
  intros Hcs Hms Hc Hm. unfold getStockStatus, classifyStock, js_num.
  rewrite Hcs, Hms; simpl.
  destruct cs as [|c|c]; simpl; [reflexivity| |lia].
  now destruct (Z.pos c <=? ms).
Qed.

Lemma reportStatus_classify p cs ms :
  products.currentStock p = Some cs -> products.minStock p = Some ms ->
  0 <= cs -> 0 <= ms ->
  reportStatus p = badgeText (classifyStock cs ms).
Proof.
  intros Hcs Hms Hc Hm. unfold reportStatus, classifyStock, js_num.
  rewrite Hcs, Hms; simpl. unfold Z.gtb.
  destruct (Z.eqb_spec cs 0) as [->|Hne].
  - destruct (Z.compare_spec 0 ms); try reflexivity; lia.
  - destruct (Z.ltb_spec 0 cs); [|lia]. simpl.
    destruct (Z.leb_spec cs ms), (Z.compare_spec cs ms), (Z.compare_spec cs 0);
      try reflexivity; lia.
Qed.

End Views.

(** X14. For a product of the data model (stock columns non-null and
    non-negative) the three readings of its status agree: the product
    passes the status filter of [getProducts] exactly for the status the
    client's [getStockStatus] gives it, and the status cell of the Excel
    and PDF reports is the text of the badge for that status. *)
Theorem status_views_agree :
  forall p,
    stock_wf p ->
    (forall s, s <> all -> status_holds s p = Status_eqb (getStockStatus p) s)
    /\ reportStatus p = badgeText (getStockStatus p).
Proof.
  intros p (cs & ms & Hcs & Hms & Hc & Hm).
  rewrite (getStockStatus_classify p cs ms Hcs Hms Hc Hm). split.
  - intros s Hs. now apply status_classify.
  - now apply reportStatus_classify.
Qed.

Lemma status_views_agree_witness :
  (forall s, s <> all -> status_holds s widget = Status_eqb (getStockStatus widget) s)
  /\ reportStatus widget = badgeText (getStockStatus widget).
Proof.
  apply (status_views_agree widget).
  exists 3, 10. repeat split; lia.
Defined.

(** ** Zones *)

Section Zones.

Lemma getZone_filtered id k zs ps ms seq :
  getZone k (mkDb (filter (fun z => negb (zones.id z =? id)) zs) ps ms seq)
  = if k =? id then None else getZone k (mkDb zs ps ms seq).
Proof.
  unfold getZone; simpl.
  induction zs as [|z zs IH]; simpl.
  - now destruct (k =? id).
  - destruct (Z.eqb_spec (zones.id z) id) as [Hz|Hz]; simpl.
    + rewrite IH. destruct (Z.eqb_spec k id) as [Hk|Hk]; [reflexivity|].
      destruct (Z.eqb_spec (zones.id z) k); [congruence|reflexivity].
    + destruct (Z.eqb_spec (zones.id z) k) as [Hzk|Hzk]; simpl.
      * destruct (Z.eqb_spec k id); [congruence|reflexivity].
      * exact IH.
Qed.

End Zones.

(** X16. [deleteZone] never orphans a product.  While any product,
    active or soft-deleted, refers to an existing zone, deleting the zone
    throws and the store is unchanged; when no product refers to it the
    zone is removed, the other zones, the products and the movements
    staying as they are. *)
Theorem deleteZone_respects_products :
  forall id db,
    (forall p z,
       getZone id db = Some z -> In p (products_tbl db) -> products.zoneId p = Some id ->
       deleteZone id db = (db, Throw "FOREIGN KEY constraint failed"))
    /\ ((forall p, In p (products_tbl db) -> products.zoneId p <> Some id) ->
        exists db',
          deleteZone id db = (db', Ok tt)
          /\ getZone id db' = None
          /\ (forall k, k <> id -> getZone k db' = getZone k db)
          /\ products_tbl db' = products_tbl db
          /\ movements_tbl db' = movements_tbl db).
Proof.
  intros id db. split.
  - intros p z Hz Hp Href. unfold deleteZone.
    assert (Hzone : existsb (fun r => zones.id r =? id) (zones_tbl db) = true).
    { unfold getZone in Hz.
      destruct (existsb (fun r => zones.id r =? id) (zones_tbl db)) eqn:Hex; [reflexivity|].
      rewrite (existsb_false_filter _ _ Hex) in Hz. discriminate. }
    assert (Hused : existsb (fun q => is_true (sql_eqZ (products.zoneId q) (Some id)))
                      (products_tbl db) = true).
    { apply existsb_exists. exists p. split; [assumption|].
      rewrite Href; simpl. now rewrite Z.eqb_refl. }
    now rewrite Hzone, Hused.
  - intros Hfree. unfold deleteZone.
    assert (Hused : existsb (fun q => is_true (sql_eqZ (products.zoneId q) (Some id)))
                      (products_tbl db) = false).
    { destruct (existsb _ (products_tbl db)) eqn:Hex; [|reflexivity].
      apply existsb_exists in Hex. destruct Hex as (p & Hp & Hq).
      exfalso. apply (Hfree p Hp).
      destruct (products.zoneId p) as [k|]; [|discriminate]. simpl in Hq.
      destruct (Z.eqb_spec k id); [congruence|discriminate]. }
    rewrite Hused, andb_false_r. eexists. split; [reflexivity|].
    destruct db as [zs ps ms seq]; simpl.
    split; [|split; [|split; reflexivity]].
    + rewrite getZone_filtered. now rewrite Z.eqb_refl.
    + intros k Hk. rewrite getZone_filtered.
      now destruct (Z.eqb_spec k id).
Qed.

Lemma deleteZone_respects_products_witness :
  deleteZone 7 (mkDb [aisle; dock] [retired] [] 0)
  = (mkDb [aisle; dock] [retired] [] 0, Throw "FOREIGN KEY constraint failed")
  /\ exists db',
       deleteZone 8 shop = (db', Ok tt)
       /\ getZone 8 db' = None
       /\ (forall k, k <> 8 -> getZone k db' = getZone k shop)
       /\ products_tbl db' = products_tbl shop
       /\ movements_tbl db' = movements_tbl shop.
Proof.
  split.
  - apply (proj1 (deleteZone_respects_products 7 (mkDb [aisle; dock] [retired] [] 0))
             retired aisle).
    + reflexivity.
    + now left.
    + reflexivity.
  - apply (proj2 (deleteZone_respects_products 8 shop)).
    intros p [<-|[<-|[]]]; discriminate.
Defined.

(** ** Listing movements *)

Section Movements.

Context {A : Type}.
Variable key : A -> Z.

Local Abbreviation ge := (key_ge key).

Lemma insert_desc_perm x l : Permutation (insert_desc key x l) (x :: l).
Proof.
  induction l as [|y l IH]; simpl.
  - apply Permutation_refl.
  - destruct (key y <=? key x).
    + apply Permutation_refl.
    + eapply perm_trans; [apply perm_skip, IH | apply perm_swap].
Qed.

Lemma order_by_desc_perm l : Permutation (order_by_desc key l) l.
Proof.
  induction l as [|x l IH]; simpl.
  - apply perm_nil.
  - eapply perm_trans; [apply insert_desc_perm | now apply perm_skip].
Qed.

Lemma insert_desc_sorted x l : Sorted ge l -> Sorted ge (insert_desc key x l).
Proof.
  induction 1 as [|y l Hs IH Hhd]; simpl.
  - repeat constructor.
  - destruct (Z.leb_spec (key y) (key x)) as [Hle|Hgt].
    + constructor; [now constructor|]. constructor. exact Hle.
    + constructor; [exact IH|].
      destruct l as [|z l]; simpl.
      * constructor. unfold key_ge. lia.
      * destruct (key z <=? key x); constructor.
        -- unfold key_ge. lia.
        -- now inversion Hhd.
Qed.

Lemma order_by_desc_sorted l : Sorted ge (order_by_desc key l).
Proof.
  induction l as [|x l IH]; simpl.
  - constructor.
  - now apply insert_desc_sorted.
Qed.

Lemma firstn_sorted n l : Sorted ge l -> Sorted ge (firstn n l).
Proof.
  revert n. induction l as [|x l IH]; intros n Hs.
  - destruct n; constructor.
  - destruct n as [|n]; simpl; [constructor|].
    inversion Hs as [|? ? Hl Hhd]; subst.
    constructor; [now apply IH|].
    destruct l as [|y l]; destruct n; simpl; constructor.
    now inversion Hhd.
Qed.

Lemma sql_limit_sorted n l : Sorted ge l -> Sorted ge (sql_limit n l).
Proof.
  unfold sql_limit. intros Hs. destruct (n <? 0); [assumption|].
  now apply firstn_sorted.
Qed.

Lemma sql_limit_incl n (l : list A) (x : A) : In x (sql_limit n l) -> In x l.
Proof.
  unfold sql_limit. destruct (n <? 0); [trivial|].
  intros H. rewrite <- (firstn_skipn (Z.to_nat n) l). apply in_or_app. now left.
Qed.

Lemma sql_limit_length n (l : list A) :
  0 <= n -> Z.of_nat (List.length (sql_limit n l)) <= n.
Proof.
  intros Hn. unfold sql_limit. destruct (Z.ltb_spec n 0); [lia|].
  rewrite length_firstn. lia.
Qed.

End Movements.

Section MovementJoins.

Lemma order_by_desc_map {A B} (f : A -> B) (key : B -> Z) l :
  map f (order_by_desc (fun a => key (f a)) l) = order_by_desc key (map f l).
Proof.
  induction l as [|x l IH]; simpl; [reflexivity|].
  rewrite <- IH. generalize (order_by_desc (fun a => key (f a)) l). intros s.
  induction s as [|y s IHs]; simpl; [reflexivity|].
  destruct (key (f y) <=? key (f x)); simpl; [reflexivity|].
  now rewrite IHs.
Qed.

Lemma sql_limit_map {A B} (f : A -> B) n l :
  map f (sql_limit n l) = sql_limit n (map f l).
Proof.
  unfold sql_limit. destruct (n <? 0); [reflexivity|]. symmetry. apply firstn_map.
Qed.

(** At most one row matches a condition that fixes a unique key. *)
Lemma unique_key_match {B K} (rkey : B -> K) (f : B -> bool) (k : K) rows :
  NoDup (map rkey rows) ->
  (forall b, f b = true -> rkey b = k) ->
  (List.length (filter f rows) <= 1)%nat.
Proof.
  intros Hnd Hkey. induction rows as [|b rows IH]; simpl; [lia|].
  inversion Hnd as [|? ? Hnot Hnd']; subst.
  destruct (f b) eqn:Hb; [|now apply IH].
  rewrite (filter_drop_all f rows); [simpl; lia|].
  intros c Hc. destruct (f c) eqn:Hfc; [|reflexivity].
  exfalso. apply Hnot. rewrite (Hkey b Hb), <- (Hkey c Hfc). now apply in_map.
Qed.

Lemma joined_with_single {A B} (on : A -> B -> bool) rows a :
  (List.length (filter (on a) rows) <= 1)%nat ->
  joined_with on rows a = [(a, hd_error (filter (on a) rows))].
Proof.
  unfold joined_with. destruct (filter (on a) rows) as [|b [|c l]]; simpl;
    [reflexivity|reflexivity|lia].
Qed.

Lemma left_join_single {A B} (on : A -> B -> bool) l rows :
  (forall a, (List.length (filter (on a) rows) <= 1)%nat) ->
  left_join on l rows = map (fun a => (a, hd_error (filter (on a) rows))) l.
Proof.
  intros H. unfold left_join. induction l as [|a l IH]; simpl; [reflexivity|].
  now rewrite joined_with_single, IH.
Qed.

Lemma requested_condition productId m :
  (if truthyZ productId
   then is_true (sql_eqZ (Some (movements.productId m)) productId)
   else true) = requested productId m.
Proof.
  unfold requested. destruct productId as [k|]; simpl; [|reflexivity].
  destruct (k =? 0); simpl; [reflexivity|].
  now destruct (movements.productId m =? k).
Qed.

Lemma getMovements_rows users_tbl productId limit db :
  NoDup (map products.id (products_tbl db)) ->
  NoDup (map users.id users_tbl) ->
  getMovements users_tbl productId limit db
  = sql_limit (or_else limit 50)
      (order_by_desc (fun r => movements.createdAt (fst (fst r)))
         (map (fun m =>
                 (m, findProduct (movements.productId m) db,
                  hd_error (filter (fun u => is_true (sql_eqS (movements.userId m)
                                                        (Some (users.id u)))) users_tbl)))
            (filter (requested productId) (movements_tbl db)))).
Proof.
  intros Hp Hu. unfold getMovements.
  rewrite (left_join_single (fun m p => movements.productId m =? products.id p)).
  2:{ intros m. apply (unique_key_match products.id _ (movements.productId m)); [exact Hp|].
      intros p Hm. symmetry. apply Z.eqb_eq. exact Hm. }
  rewrite (left_join_single _ _ users_tbl).
  2:{ intros [m p]. simpl.
      destruct (movements.userId m) as [uid|] eqn:Huid.
      - apply (unique_key_match users.id _ uid); [exact Hu|].
        intros u Hm. simpl in Hm. symmetry. apply String.eqb_eq.
        now destruct (String.eqb uid (users.id u)).
      - rewrite filter_drop_all; [simpl; lia | reflexivity]. }
  rewrite map_map. f_equal. f_equal.
  rewrite (filter_ext _ (fun r : MovementWithProduct => requested productId (fst (fst r))))
    by (intros r; apply requested_condition).
  induction (movements_tbl db) as [|m ms IH]; simpl; [reflexivity|].
  destruct (requested productId m); simpl.
  - f_equal; [|exact IH]. f_equal. f_equal.
    unfold findProduct. f_equal. apply filter_ext. intros p. apply Z.eqb_sym.
  - exact IH.
Qed.

End MovementJoins.

(** X17. Product keys and user keys being unique, [getMovements] returns
    each requested movement at most once, newest first, cut to the limit
    (50 when none is given): its movements are the first [limit] of the
    requested rows of the table in descending order of [createdAt], every
    row carries the product of its movement, and a [productId] of 0 or
    none requests every movement. *)
Theorem getMovements_newest_first :
  forall users_tbl productId limit db,
    NoDup (map products.id (products_tbl db)) ->
    NoDup (map users.id users_tbl) ->
    map (fun r => fst (fst r)) (getMovements users_tbl productId limit db)
    = sql_limit (or_else limit 50)
        (order_by_desc movements.createdAt
           (filter (requested productId) (movements_tbl db)))
    /\ Sorted (key_ge (fun r => movements.createdAt (fst (fst r))))
         (getMovements users_tbl productId limit db)
    /\ (0 <= or_else limit 50 ->
        Z.of_nat (List.length (getMovements users_tbl productId limit db))
        <= or_else limit 50)
    /\ Forall (fun r => In (fst (fst r)) (movements_tbl db)
                        /\ requested productId (fst (fst r)) = true
                        /\ snd (fst r) = findProduct (movements.productId (fst (fst r))) db)
         (getMovements users_tbl productId limit db).
Proof.
  intros users_tbl productId limit db Hp Hu.
  pose proof (getMovements_rows users_tbl productId limit db Hp Hu) as Hrows.
  split; [|split; [|split]].
  - rewrite Hrows, sql_limit_map.
    rewrite (order_by_desc_map (fun r : MovementWithProduct => fst (fst r))
               movements.createdAt).
    rewrite map_map; simpl. now rewrite map_id.
  - rewrite Hrows. apply sql_limit_sorted, order_by_desc_sorted.
  - intros Hn. now apply sql_limit_length.
  - rewrite Hrows. apply Forall_forall. intros r Hr.
    apply sql_limit_incl in Hr.
    apply (Permutation_in _ (order_by_desc_perm _ _)) in Hr.
    apply in_map_iff in Hr. destruct Hr as (m & <- & Hm).
    apply filter_In in Hm. destruct Hm as [Hin Hreq]. simpl. repeat split; assumption.
Qed.

Lemma getMovements_newest_first_witness :
  map (fun r => fst (fst r)) (getMovements [ann] (Some 1) (Some 1) busy_shop)
  = sql_limit (or_else (Some 1) 50)
      (order_by_desc movements.createdAt
         (filter (requested (Some 1)) (movements_tbl busy_shop)))
  /\ Sorted (key_ge (fun r => movements.createdAt (fst (fst r))))
       (getMovements [ann] (Some 1) (Some 1) busy_shop)
  /\ (0 <= or_else (Some 1) 50 ->
      Z.of_nat (List.length (getMovements [ann] (Some 1) (Some 1) busy_shop))
      <= or_else (Some 1) 50)
  /\ Forall (fun r => In (fst (fst r)) (movements_tbl busy_shop)
                      /\ requested (Some 1) (fst (fst r)) = true
                      /\ snd (fst r) = findProduct (movements.productId (fst (fst r))) busy_shop)
       (getMovements [ann] (Some 1) (Some 1) busy_shop).
Proof.
  apply (getMovements_newest_first [ann] (Some 1) (Some 1) busy_shop).
  - repeat constructor; simpl; intuition discriminate.
  - repeat constructor; simpl; intuition.
Defined.

(** ** What no operation of the storage does *)

Section Operations.

Lemma updateStock_store id q ty r u now db :
  fst (updateStock id q ty r u now db) = db
  \/ exists p, findProduct id db = Some p
       /\ fst (updateStock id q ty r u now db) = committed db id q ty r u now p.
Proof.
  destruct (findProduct id db) as [p|] eqn:Hp.
  - rewrite (updateStock_found _ _ _ _ _ _ _ _ Hp).
    destruct (computeNewStock _ q ty <? 0); [now left|]. right. now exists p.
  - rewrite (updateStock_missing _ _ _ _ _ _ _ Hp). now left.
Qed.

Lemma map_id_updated (f : products.row -> products.row) id rows :
  (forall p, products.id (f p) = products.id p) ->
  map products.id (map (fun p => if products.id p =? id then f p else p) rows)
  = map products.id rows.
Proof.
  intros Hf. rewrite map_map. apply map_ext. intros p.
  destruct (products.id p =? id); [apply Hf|reflexivity].
Qed.

(** One operation appends at most one movement and never drops a key. *)
Lemma exec_appends op db :
  (exists appended, movements_tbl (exec op db) = movements_tbl db ++ appended)
  /\ (exists added, map products.id (products_tbl (exec op db))
                    = map products.id (products_tbl db) ++ added).
Proof.
  destruct op as [id zone now|id patch now|id|id product now|id patch now|id
                 |movement now|id q ty r u now]; simpl.
  - unfold createZone. destruct (existsb _ (zones_tbl db)); simpl;
      split; exists []; now rewrite app_nil_r.
  - split; exists []; now rewrite app_nil_r.
  - unfold deleteZone. destruct (existsb _ (zones_tbl db) && existsb _ (products_tbl db));
      simpl; split; exists []; now rewrite app_nil_r.
  - unfold createProduct.
    destruct (existsb (fun p => products.id p =? id) (products_tbl db)); simpl;
      [split; exists []; now rewrite app_nil_r|].
    destruct (existsb _ (products_tbl db)); simpl;
      [split; exists []; now rewrite app_nil_r|].
    destruct (zone_exists (insertProduct.zoneId product) db); simpl.
    + split; [exists []; now rewrite app_nil_r|]. exists [id]. now rewrite map_app.
    + split; exists []; now rewrite app_nil_r.
  - unfold updateProduct.
    destruct (existsb (fun p => products.id p =? id) (products_tbl db)); simpl;
      [|split; exists []; now rewrite app_nil_r].
    destruct (match productPatch.productId patch with
              | Some s => existsb _ (products_tbl db)
              | None => false
              end); simpl; [split; exists []; now rewrite app_nil_r|].
    destruct (zone_exists (productPatch.zoneId patch) db); simpl.
    + split; exists []; rewrite app_nil_r; [reflexivity|].
      now apply map_id_updated.
    + split; exists []; now rewrite app_nil_r.
  - split; exists []; rewrite app_nil_r; [reflexivity|].
    now apply map_id_updated.
  - unfold createMovement. destruct (existsb _ (products_tbl db)); simpl.
    + split; [eexists; reflexivity|]. exists []. now rewrite app_nil_r.
    + split; exists []; now rewrite app_nil_r.
  - destruct (updateStock_store id q ty r u now db) as [->|(p & _ & ->)].
    + split; exists []; now rewrite app_nil_r.
    + split; [eexists; reflexivity|]. exists []. rewrite app_nil_r.
      rewrite committed_products. now apply map_id_updated.
Qed.

Lemma existsb_mono {A} (f : A -> bool) l extra :
  existsb f l = true -> existsb f (l ++ extra) = true.
Proof. intros H. rewrite existsb_app, H. reflexivity. Qed.

Lemma existsb_key_updated (f : products.row -> products.row) id k rows :
  (forall p, products.id (f p) = products.id p) ->
  existsb (fun p => products.id p =? k)
    (map (fun p => if products.id p =? id then f p else p) rows)
  = existsb (fun p => products.id p =? k) rows.
Proof.
  intros Hf. induction rows as [|p rows IH]; simpl; [reflexivity|].
  rewrite IH. f_equal. destruct (products.id p =? id); [now rewrite Hf|reflexivity].
Qed.

Lemma findProduct_exists id db p :
  findProduct id db = Some p ->
  existsb (fun q => products.id q =? id) (products_tbl db) = true.
Proof.
  intros H. destruct (findProduct_rows _ _ _ H) as [rest Hrows].
  apply existsb_exists. exists p.
  assert (Hin : In p (filter (fun r => products.id r =? id) (products_tbl db)))
    by (rewrite Hrows; now left).
  now apply filter_In in Hin.
Qed.

(** References resolve in a store that differs by rows that keep their
    zone and their key. *)
Lemma references_after_update (f : products.row -> products.row) id db ms seq :
  (forall p, products.id (f p) = products.id p) ->
  (forall p, In p (products_tbl db) -> products.id p = id ->
             zone_exists (products.zoneId (f p)) db = true) ->
  (forall m, In m ms ->
             existsb (fun p => products.id p =? movements.productId m) (products_tbl db) = true) ->
  references_resolve db ->
  references_resolve
    (mkDb (zones_tbl db)
       (map (fun p => if products.id p =? id then f p else p) (products_tbl db)) ms seq).
Proof.
  intros Hid Hzone Hms [Hp _]. split; simpl.
  - intros p Hin. apply in_map_iff in Hin. destruct Hin as (q & <- & Hq).
    destruct (Z.eqb_spec (products.id q) id) as [Heq|_].
    + exact (Hzone q Hq Heq).
    + exact (Hp q Hq).
  - intros m Hm. rewrite existsb_key_updated by assumption. now apply Hms.
Qed.

Lemma exec_keeps_references op db :
  references_resolve db -> references_resolve (exec op db).
Proof.
  intros Href. pose proof Href as [Hp Hm].
  destruct op as [id zone now|id patch now|id|id product now|id patch now|id
                 |movement now|id q ty r u now]; simpl.
  - unfold createZone. destruct (existsb _ (zones_tbl db)); simpl; [assumption|].
    split; simpl; [|exact Hm].
    intros p Hin. specialize (Hp p Hin). unfold zone_exists in *; simpl.
    destruct (products.zoneId p); [now apply existsb_mono|reflexivity].
  - split; simpl; [|exact Hm].
    intros p Hin. specialize (Hp p Hin). unfold zone_exists in *; simpl.
    destruct (products.zoneId p) as [k|]; [|reflexivity].
    rewrite <- Hp. clear. induction (zones_tbl db) as [|z zs IH]; simpl; [reflexivity|].
    rewrite IH. f_equal. now destruct (zones.id z =? id).
  - unfold deleteZone.
    destruct (existsb (fun z => zones.id z =? id) (zones_tbl db)) eqn:Hz;
      destruct (existsb (fun p => is_true (sql_eqZ (products.zoneId p) (Some id)))
                  (products_tbl db)) eqn:Hu; simpl; try assumption.
    + split; simpl; [|exact Hm].
      intros p Hin. specialize (Hp p Hin). unfold zone_exists in *; simpl.
      destruct (products.zoneId p) as [k|] eqn:Hk; [|reflexivity].
      assert (Hne : k <> id).
      { intros ->. assert (existsb (fun q => is_true (sql_eqZ (products.zoneId q) (Some id)))
                             (products_tbl db) = true).
        { apply existsb_exists. exists p. split; [assumption|].
          rewrite Hk; simpl. now rewrite Z.eqb_refl. }
        congruence. }
      apply existsb_exists in Hp. destruct Hp as (z & Hzin & Hzk).
      apply existsb_exists. exists z. split; [|assumption].
      apply filter_In. split; [assumption|].
      apply Z.eqb_eq in Hzk. apply negb_true_iff, Z.eqb_neq. congruence.
    + split; simpl; [|exact Hm].
      intros p Hin. specialize (Hp p Hin). unfold zone_exists in *; simpl.
      destruct (products.zoneId p) as [k|] eqn:Hk; [|reflexivity].
      rewrite filter_keep_all; [assumption|].
      intros z Hzin. apply negb_true_iff.
      destruct (zones.id z =? id) eqn:Hzid; [|reflexivity].
      assert (existsb (fun z => zones.id z =? id) (zones_tbl db) = true)
        by (apply existsb_exists; now exists z).
      congruence.
    + split; simpl; [|exact Hm].
      intros p Hin. specialize (Hp p Hin). unfold zone_exists in *; simpl.
      destruct (products.zoneId p) as [k|] eqn:Hk; [|reflexivity].
      rewrite filter_keep_all; [assumption|].
      intros z Hzin. apply negb_true_iff.
      destruct (zones.id z =? id) eqn:Hzid; [|reflexivity].
      assert (existsb (fun z => zones.id z =? id) (zones_tbl db) = true)
        by (apply existsb_exists; now exists z).
      congruence.
  - unfold createProduct.
    destruct (existsb (fun p => products.id p =? id) (products_tbl db)); simpl;
      [assumption|].
    destruct (existsb _ (products_tbl db)); simpl; [assumption|].
    destruct (zone_exists (insertProduct.zoneId product) db) eqn:Hz; simpl;
      [|assumption].
    split; simpl.
    + intros p Hin. apply in_app_or in Hin. destruct Hin as [Hin|[<-|[]]].
      * exact (Hp p Hin).
      * exact Hz.
    + intros m Hin. apply existsb_mono. now apply Hm.
  - unfold updateProduct.
    destruct (existsb (fun p => products.id p =? id) (products_tbl db)); simpl;
      [|assumption].
    destruct (match productPatch.productId patch with
              | Some s => existsb _ (products_tbl db)
              | None => false
              end); simpl; [assumption|].
    destruct (zone_exists (productPatch.zoneId patch) db) eqn:Hz; simpl; [|assumption].
    apply references_after_update; try assumption; [reflexivity|].
    intros p Hin _. simpl.
    destruct (productPatch.zoneId patch) as [z|]; simpl; [exact Hz|].
    exact (Hp p Hin).
  - unfold deleteProduct. apply references_after_update; try assumption; [reflexivity|].
    intros p Hin _. exact (Hp p Hin).
  - unfold createMovement.
    destruct (existsb _ (products_tbl db)) eqn:Hex; simpl; [|assumption].
    split; simpl; [exact Hp|].
    intros m Hin. apply in_app_or in Hin. destruct Hin as [Hin|[<-|[]]].
    + now apply Hm.
    + exact Hex.
  - destruct (updateStock_store id q ty r u now db) as [->|(p & Hfind & ->)];
      [assumption|].
    unfold committed. apply references_after_update; try assumption; [reflexivity| |].
    + intros row Hin _. exact (Hp row Hin).
    + intros m Hin. apply in_app_or in Hin. destruct Hin as [Hin|[<-|[]]].
      * now apply Hm.
      * simpl. now apply (findProduct_exists id db p).
Qed.

End Operations.

(** X18. No sequence of storage operations (creating, editing and
    deleting zones and products, creating movements, updating stock)
    rewrites the audit trail or drops a product: the movement table after
    the sequence is the table before it with rows appended, and the
    product keys after it are the keys before it, in place, with keys
    appended. *)
Theorem storage_never_rewrites_history :
  forall ops db,
    (exists appended, movements_tbl (execAll ops db) = movements_tbl db ++ appended)
    /\ (exists added, map products.id (products_tbl (execAll ops db))
                      = map products.id (products_tbl db) ++ added).
Proof.
  intros ops. unfold execAll.
  induction ops as [|op ops IH]; intros db; simpl.
  - split; exists []; now rewrite app_nil_r.
  - destruct (IH (exec op db)) as [[a Ha] [b Hb]].
    destruct (exec_appends op db) as [[a0 Ha0] [b0 Hb0]].
    split.
    + exists (a0 ++ a). now rewrite Ha, Ha0, app_assoc.
    + exists (b0 ++ b). now rewrite Hb, Hb0, app_assoc.
Qed.

(** X19. Referential integrity is an invariant of the storage: from a
    store in which the zone of every product and the product of every
    movement exist, any sequence of storage operations, whether they
    return or throw, leads to a store in which they still do. *)
Theorem storage_keeps_references :
  forall ops db,
    references_resolve db -> references_resolve (execAll ops db).
Proof.
  intros ops. unfold execAll.
  induction ops as [|op ops IH]; intros db Href; simpl; [assumption|].
  apply IH. now apply exec_keeps_references.
Qed.

Lemma storage_keeps_references_witness :
  references_resolve
    (execAll [CreateProduct 3 gadget 2000; DeleteZone 8; UpdateStock 3 2 OUT None None 3000;
              DeleteProduct 1; DeleteZone 7] shop).
Proof.
  apply (storage_keeps_references
           [CreateProduct 3 gadget 2000; DeleteZone 8; UpdateStock 3 2 OUT None None 3000;
            DeleteProduct 1; DeleteZone 7] shop).
  exact shop_references_resolve.
Defined.

(** ** New rows in the listings *)

Section NewRows.

Lemma createZone_ok_inv id zone now db db' row :
  createZone id zone now db = (db', Ok row) ->
  existsb (fun z => zones.id z =? id) (zones_tbl db) = false
  /\ row = zones.mk id (insertZone.name zone) (insertZone.description zone)
             (or_else (insertZone.capacity zone) (Some 0)) now now
  /\ db' = mkDb (zones_tbl db ++ [row]) (products_tbl db) (movements_tbl db)
             (movements_seq db).
Proof.
  unfold createZone. destruct (existsb _ (zones_tbl db)); [discriminate|].
  simpl. intros H. injection H as <- <-. repeat split.
Qed.

Lemma fresh_key_nodup id (zs : list zones.row) row :
  existsb (fun z => zones.id z =? id) zs = false ->
  zones.id row = id ->
  NoDup (map zones.id zs) ->
  NoDup (map zones.id (zs ++ [row])).
Proof.
  intros Hfresh Hid Hnd. rewrite map_app. simpl.
  apply NoDup_app; [assumption|repeat constructor; intros []|].
  intros k Hk [<-|[]]. apply in_map_iff in Hk. destruct Hk as (z & Hz & Hin).
  assert (existsb (fun z => zones.id z =? id) zs = true).
  { apply existsb_exists. exists z. split; [assumption|]. apply Z.eqb_eq. congruence. }
  congruence.
Qed.

Lemma in_order_by_back {A} (key : A -> string) l x : In x l -> In x (order_by key l).
Proof. apply Permutation_in, Permutation_sym, order_by_perm. Qed.

End NewRows.

(** X20. A zone that [createZone] has inserted is found by [getZone] and
    listed by [getZones]; its capacity is the one given, 0 when none was
    given; and, in a store that resolves its references and has unique
    zone ids, the dashboard shows it at once with [itemCount] 0. *)
Theorem created_zone_is_listed_empty :
  forall d id zone now db db' row,
    createZone id zone now db = (db', Ok row) ->
    references_resolve db ->
    NoDup (map zones.id (zones_tbl db)) ->
    getZone id db' = Some row
    /\ In row (getZones db')
    /\ zones.capacity row = or_else (insertZone.capacity zone) (Some 0)
    /\ In (mkZoneStatus row 0 (js_or0 (zones.capacity row)))
          (zoneStatus (getDashboardMetrics d db')).
Proof.
  intros d id zone now db db' row H [Hrefs _] Hnd.
  destruct (createZone_ok_inv _ _ _ _ _ _ H) as (Hfresh & Hrow & Hdb').
  assert (Hid : zones.id row = id) by now rewrite Hrow.
  assert (Hzones : zones_tbl db' = zones_tbl db ++ [row]) by now rewrite Hdb'.
  assert (Hprods : products_tbl db' = products_tbl db) by now rewrite Hdb'.
  split; [|split; [|split]].
  - unfold getZone. rewrite Hzones, filter_app, (existsb_false_filter _ _ Hfresh); simpl.
    now rewrite Hid, Z.eqb_refl.
  - unfold getZones. apply in_order_by_back. rewrite Hzones.
    apply in_or_app. right. now left.
  - now rewrite Hrow.
  - assert (Hnd' : NoDup (map zones.id (zones_tbl db')))
      by (rewrite Hzones; now apply (fresh_key_nodup id)).
    unfold getDashboardMetrics; cbn [zoneStatus].
    rewrite (zoneStatus_unordered db' Hnd'). apply in_order_by_back.
    apply in_map_iff. exists row. split.
    + f_equal. rewrite Hprods. unfold count_star.
      rewrite filter_drop_all; [reflexivity|].
      intros p Hp. unfold activeIn.
      destruct (products.isActive p) as [[|]|]; try reflexivity.
      destruct (products.zoneId p) as [k|] eqn:Hk; [|reflexivity].
      apply Z.eqb_neq. intros Heq. specialize (Hrefs p Hp).
      rewrite Hk in Hrefs. simpl in Hrefs. rewrite Heq, Hid in Hrefs. congruence.
    + rewrite Hzones. apply in_or_app. right. now left.
Qed.

Lemma created_zone_is_listed_empty_witness :
  getZone 9 (mkDb [aisle; dock; zones.mk 9 "Yard" None (Some 0) 2000 2000]
               [widget; retired] [] 0)
  = Some (zones.mk 9 "Yard" None (Some 0) 2000 2000)
  /\ In (zones.mk 9 "Yard" None (Some 0) 2000 2000)
        (getZones (mkDb [aisle; dock; zones.mk 9 "Yard" None (Some 0) 2000 2000]
                     [widget; retired] [] 0))
  /\ zones.capacity (zones.mk 9 "Yard" None (Some 0) 2000 2000)
     = or_else (insertZone.capacity (insertZone.mk "Yard" None None)) (Some 0)
  /\ In (mkZoneStatus (zones.mk 9 "Yard" None (Some 0) 2000 2000) 0
           (js_or0 (zones.capacity (zones.mk 9 "Yard" None (Some 0) 2000 2000))))
        (zoneStatus (getDashboardMetrics Postgres
           (mkDb [aisle; dock; zones.mk 9 "Yard" None (Some 0) 2000 2000]
              [widget; retired] [] 0))).
Proof.
  apply (created_zone_is_listed_empty Postgres 9 (insertZone.mk "Yard" None None) 2000 shop).
  - reflexivity.
  - exact shop_references_resolve.
  - repeat constructor; simpl; intuition discriminate.
Defined.

(** X21. A product created through [POST /api/products] without
    [isActive], or with it true, is in the unfiltered listing of
    [getProducts] after the request, with its zone (zone ids being
    unique). *)
Theorem created_product_is_listed :
  forall d id data user now db db' p,
    products_create_route id (Some data) user now db = (db', Sent 201 p) ->
    or_else (insertProduct.isActive data) (Some true) = Some true ->
    NoDup (map zones.id (zones_tbl db)) ->
    In (p, zoneOf db' p) (getProducts d (mkFilters None None None None) db').
Proof.
  intros d id data user now db db' p Hroute Hact Hnd.
  destruct (products_create_route_sent _ _ _ _ _ _ _ Hroute) as (db1 & Hc & Hcase).
  destruct (createProduct_ok_inv _ _ _ _ _ _ Hc) as (_ & _ & _ & Hrow & Hdb1).
  assert (Hzones : zones_tbl db' = zones_tbl db)
    by (destruct Hcase as [[_ ->]|[_ ->]]; now rewrite Hdb1).
  assert (Hprods : products_tbl db' = products_tbl db ++ [p])
    by (destruct Hcase as [[_ ->]|[_ ->]]; now rewrite Hdb1).
  apply (Permutation_in _ (Permutation_sym (getProducts_rows d _ db'
           ltac:(rewrite Hzones; exact Hnd)))).
  apply in_map_iff. exists p. split; [reflexivity|].
  apply filter_In. split.
  - rewrite Hprods. apply in_or_app. right. now left.
  - unfold conditions; simpl. rewrite where_all_one, active_condition_true.
    rewrite Hrow; simpl. now rewrite Hact.
Qed.

Lemma created_product_is_listed_witness :
  In (gadget_row, zoneOf shop_with_gadget gadget_row)
     (getProducts SQLite (mkFilters None None None None) shop_with_gadget).
Proof.
  apply (created_product_is_listed SQLite 3 gadget "u1" 2000 shop).
  - reflexivity.
  - reflexivity.
  - repeat constructor; simpl; intuition discriminate.
Defined.

(** ** The status filter of the listing and of the dashboard *)


Section StatusFilter.



End StatusFilter.


